(** * Message monitor: filter, formatter and dispatch handler

    A shallow embedding of [src/main.py] and [src/config.py]: the filter
    predicate [should_process_message], the report builder
    [format_message_info] and the event handler [handle_message], together
    with the properties of the filter-format-forward pipeline. *)

From Stdlib Require Import List ZArith NArith Bool Lia String Ascii.
From Stdlib Require Import Numbers.DecimalString.
Import ListNotations.

(** ** Python strings

    A Python [str] is a sequence of Unicode code points; [len] counts code
    points and [s[:n]] keeps the first [n] of them. *)

Definition char := N.
Definition str := list char.

(** [len(s)] *)
Abbreviation len := (@List.length char).

(** An ASCII literal of the source, as a [str]. *)
Definition lit (s : string) : str := map N_of_ascii (list_ascii_of_string s).

Definition nl : str := [10%N].

Definition char_star : char := 42%N.
Definition char_underscore : char := 95%N.
Definition char_backtick : char := 96%N.
Definition char_backslash : char := 92%N.
Definition char_dot : char := 46%N.

Definition str_eqb (a b : str) : bool :=
  if list_eq_dec N.eq_dec a b then true else false.

(** [x in [a, b, ...]] on strings. *)
Definition str_in (x : str) (l : list str) : bool := existsb (str_eqb x) l.

(** [x in l] on integers. *)
Definition int_in (x : Z) (l : list Z) : bool := existsb (Z.eqb x) l.

(** Truthiness of an optional string: [None] and the empty string are
    false. *)
Definition nonempty (s : str) : bool :=
  match s with [] => false | _ :: _ => true end.

Definition truthy (o : option str) : bool :=
  match o with Some s => nonempty s | None => false end.

(** [a or d] where [a] is an optional string and [d] a string. *)
Definition py_or (a : option str) (d : str) : str :=
  match a with
  | Some s => if nonempty s then s else d
  | None => d
  end.

(** [s.startswith(p)] *)
Fixpoint startswith (p s : str) : bool :=
  match p, s with
  | [], _ => true
  | _ :: _, [] => false
  | a :: p', b :: s' => N.eqb a b && startswith p' s'
  end.

(** [s.replace(old, new)] for a non-empty [old]: the occurrences of [old]
    are found from left to right without overlap; [skip] counts the
    characters of a matched occurrence still to be passed over. *)
Fixpoint replace_from (old new : str) (skip : nat) (s : str) : str :=
  match s with
  | [] => []
  | c :: s' =>
    match skip with
    | S k => replace_from old new k s'
    | O =>
      if startswith old s
      then new ++ replace_from old new (pred (len old)) s'
      else c :: replace_from old new 0 s'
    end
  end.

Definition replace (old new : str) (s : str) : str := replace_from old new 0 s.

(** [str.isspace] on one code point. *)
Definition is_space (c : char) : bool :=
  ((9 <=? c) && (c <=? 13) || (28 <=? c) && (c <=? 32)
   || (c =? 0x85) || (c =? 0xA0) || (c =? 0x1680)
   || (0x2000 <=? c) && (c <=? 0x200A)
   || (c =? 0x2028) || (c =? 0x2029) || (c =? 0x202F)
   || (c =? 0x205F) || (c =? 0x3000))%N.

Fixpoint lstrip (s : str) : str :=
  match s with
  | [] => []
  | c :: s' => if is_space c then lstrip s' else s
  end.

Definition rstrip (s : str) : str := rev (lstrip (rev s)).

(** [s.strip()] *)
Definition strip (s : str) : str := rstrip (lstrip s).

(** [s.split(sep)[-1]] for a one-character [sep]: what follows the last
    separator, the whole string when there is none. *)
Definition split_last (sep : char) (s : str) : str :=
  fold_left (fun acc c => if N.eqb c sep then [] else acc ++ [c]) s [].

(** [str(n)] for an integer. *)
Definition str_of_int (n : Z) : str :=
  lit (NilEmpty.string_of_int (Z.to_int n)).

(** ** Data model: the fields of a Pyrogram message the program reads *)

(** An enum member, seen through its [.value]; a member is always truthy. *)
Record ChatType := { value : str }.

(** A media-kind enum member, seen through [str(member)]. *)
Record MessageMediaType := { media_str : str }.

Module Chat.
Record t := {
  id : Z;
  type : option ChatType;
  title : option str;
  first_name : option str;
  username : option str
}.
End Chat.

Module User.
Record t := {
  id : Z;
  first_name : option str;
  last_name : option str;
  username : option str;
  is_self : bool
}.
End User.

Module Message.
(** [reply_to_message], [forward_from] and [forward_from_chat] are objects
    of which the program only tests the presence. *)
Record t := {
  id : Z;
  chat : option Chat.t;
  from_user : option User.t;
  text : option str;
  caption : option str;
  media : option MessageMediaType;
  reply_to_message : bool;
  forward_from : bool;
  forward_from_chat : bool
}.

Definition with_text (x : option str) (m : t) : t :=
  {| id := id m; chat := chat m; from_user := from_user m; text := x;
     caption := caption m; media := media m;
     reply_to_message := reply_to_message m;
     forward_from := forward_from m;
     forward_from_chat := forward_from_chat m |}.

Definition with_from_user (x : option User.t) (m : t) : t :=
  {| id := id m; chat := chat m; from_user := x; text := text m;
     caption := caption m; media := media m;
     reply_to_message := reply_to_message m;
     forward_from := forward_from m;
     forward_from_chat := forward_from_chat m |}.
End Message.

(** ** Configuration ([src/config.py]) *)

Record Config := {
  TARGET_USERS : list Z;
  EXCLUDED_CHATS : list Z;
  MIN_MESSAGE_LENGTH : Z;
  INCLUDE_MEDIA : bool;
  INCLUDE_PRIVATE_CHATS : bool;
  INCLUDE_GROUPS : bool;
  INCLUDE_CHANNELS : bool
}.

(** The values [config.py] ships with. *)
Definition config_py : Config :=
  {| TARGET_USERS := [7517848621%Z];
     EXCLUDED_CHATS := [];
     MIN_MESSAGE_LENGTH := 1;
     INCLUDE_MEDIA := true;
     INCLUDE_PRIVATE_CHATS := true;
     INCLUDE_GROUPS := true;
     INCLUDE_CHANNELS := true |}.

(** The same configuration with the three chat-type flags replaced. *)
Definition with_type_flags (p g c : bool) (cfg : Config) : Config :=
  {| TARGET_USERS := TARGET_USERS cfg;
     EXCLUDED_CHATS := EXCLUDED_CHATS cfg;
     MIN_MESSAGE_LENGTH := MIN_MESSAGE_LENGTH cfg;
     INCLUDE_MEDIA := INCLUDE_MEDIA cfg;
     INCLUDE_PRIVATE_CHATS := p;
     INCLUDE_GROUPS := g;
     INCLUDE_CHANNELS := c |}.

(** ** The filter: [should_process_message] *)

Definition should_process_message (cfg : Config) (message : Message.t) : bool :=
  match Message.chat message with
  | None => false
  | Some chat =>
    if int_in (Chat.id chat) (EXCLUDED_CHATS cfg) then false
    else if match Chat.type chat with
            | Some ty =>
              let chat_type := value ty in
              if str_eqb chat_type (lit "private")
                 && negb (INCLUDE_PRIVATE_CHATS cfg) then true
              else if str_in chat_type [lit "group"; lit "supergroup"]
                      && negb (INCLUDE_GROUPS cfg) then true
              else if str_eqb chat_type (lit "channel")
                      && negb (INCLUDE_CHANNELS cfg) then true
              else false
            | None => false
            end
    then false
    else if match Message.text message with
            | Some text =>
              nonempty text
              && (Z.of_nat (len text) <? MIN_MESSAGE_LENGTH cfg)%Z
            | None => false
            end
    then false
    else if match Message.media message with
            | Some _ => negb (INCLUDE_MEDIA cfg)
            | None => false
            end
    then false
    else true
  end.

(** ** The formatter: [format_message_info] *)

(** The three chained [replace] calls the source applies to every free-text
    field. *)
Definition escape_markdown (s : str) : str :=
  replace [char_backtick] [char_backslash; char_backtick]
    (replace [char_underscore] [char_backslash; char_underscore]
       (replace [char_star] [char_backslash; char_star] s)).

Definition ellipsis : str := lit "...".

(** [s[:n] + "..." if len(s) > n else s] *)
Definition preview (n : nat) (s : str) : str :=
  if Nat.ltb n (len s) then firstn n s ++ ellipsis else s.

(** [f"@{u}" if u else "No username"] *)
Definition username_or_default (u : option str) : str :=
  match u with
  | Some s => if nonempty s then lit "@" ++ s else lit "No username"
  | None => lit "No username"
  end.

Definition label_time : str := [0x1F552%N] ++ lit " *Time:* ".
Definition label_chat : str := [0x1F4AC%N] ++ lit " *Chat:* ".
Definition label_type : str := [0x1F3F7%N; 0xFE0F%N] ++ lit " *Type:* ".
Definition label_username : str := [0x1F517%N] ++ lit " *Username:* ".
Definition label_chat_id : str := [0x1F194%N] ++ lit " *Chat ID:* `".
Definition label_sender : str := [0x1F464%N] ++ lit " *Sender:* ".
Definition label_sender_username : str :=
  [0x1F517%N] ++ lit " *Sender Username:* ".
Definition label_sender_id : str := [0x1F194%N] ++ lit " *Sender ID:* `".
Definition label_text : str := [0x1F4DD%N] ++ lit " *Text:* ".
Definition label_media : str := [0x1F4CE%N] ++ lit " *Media:* ".
Definition label_caption : str := [0x1F4C4%N] ++ lit " *Caption:* ".
Definition line_reply : str :=
  [0x21A9%N; 0xFE0F%N] ++ lit " *Reply:* This is a reply to another message".
Definition line_forwarded : str :=
  [0x1F504%N] ++ lit " *Forwarded:* This is a forwarded message".
Definition label_message_id : str := [0x1F517%N] ++ lit " *Message ID:* `".

(** ["\n".join(parts)] *)
Fixpoint join (sep : str) (parts : list str) : str :=
  match parts with
  | [] => []
  | [p] => p
  | p :: ps => p ++ sep ++ join sep ps
  end.

Section Formatter.

(** [str.title] and [str.upper] depend on the Unicode case tables of the
    interpreter; they are taken as given. *)
Variable str_title : str -> str.
Variable str_upper : str -> str.

(** The lines appended under [# Chat information]. *)
Definition chat_lines (message : Message.t) : list str :=
  match Message.chat message with
  | Some chat =>
    let chat_type :=
      match Chat.type chat with
      | Some ty => value ty
      | None => lit "unknown"
      end in
    let chat_title :=
      py_or (Chat.title chat) (py_or (Chat.first_name chat) (lit "Unknown")) in
    let chat_username := username_or_default (Chat.username chat) in
    let chat_title := escape_markdown chat_title in
    [ label_chat ++ chat_title;
      label_type ++ str_title chat_type;
      label_username ++ chat_username;
      label_chat_id ++ str_of_int (Chat.id chat) ++ lit "`" ]
  | None => []
  end.

(** [f"{first_name or ''} {last_name or ''}".strip()] *)
Definition sender_display_name (sender : User.t) : str :=
  strip (py_or (User.first_name sender) [] ++ lit " "
         ++ py_or (User.last_name sender) []).

(** The lines appended under [# Sender information]. *)
Definition sender_lines (message : Message.t) : list str :=
  match Message.from_user message with
  | Some sender =>
    let sender_name := sender_display_name sender in
    let sender_username := username_or_default (User.username sender) in
    let sender_name := escape_markdown sender_name in
    [ label_sender ++ sender_name;
      label_sender_username ++ sender_username;
      label_sender_id ++ str_of_int (User.id sender) ++ lit "`" ]
  | None => []
  end.

(** The line appended under [# Message content]. *)
Definition text_lines (message : Message.t) : list str :=
  match Message.text message with
  | Some text =>
    if nonempty text then
      let text_preview := preview 200 text in
      let text_preview := escape_markdown text_preview in
      [ label_text ++ text_preview ]
    else []
  | None => []
  end.

(** The lines appended under [# Media information]. *)
Definition media_lines (message : Message.t) : list str :=
  match Message.media message with
  | Some media =>
    let media_type := split_last char_dot (media_str media) in
    [ label_media ++ str_upper media_type ]
    ++ match Message.caption message with
       | Some caption =>
         if nonempty caption then
           let caption_preview := preview 100 caption in
           let caption_preview := escape_markdown caption_preview in
           [ label_caption ++ caption_preview ]
         else []
       | None => []
       end
  | None => []
  end.

(** The lines appended under [# Additional info], the message id last. *)
Definition additional_lines (message : Message.t) : list str :=
  (if Message.reply_to_message message then [ line_reply ] else [])
  ++ (if Message.forward_from message || Message.forward_from_chat message
      then [ line_forwarded ] else [])
  ++ [ label_message_id ++ str_of_int (Message.id message) ++ lit "`" ].

(** [info_parts] as it stands before the final join.  [timestamp] is the
    value of [datetime.now().strftime("%Y-%m-%d %H:%M:%S")] read by the
    call. *)
Definition info_parts (timestamp : str) (message : Message.t) : list str :=
  [ label_time ++ timestamp ]
  ++ chat_lines message
  ++ sender_lines message
  ++ text_lines message
  ++ media_lines message
  ++ additional_lines message.

Definition format_message_info (timestamp : str) (message : Message.t) : str :=
  join nl (info_parts timestamp message).

End Formatter.

(** ** The handler: [handle_message]

    The handler prints, logs, reads the clock and calls the relay bot.  Its
    model is a computation over the outside world that returns or raises and
    records, in order, the calls it makes. *)

(** An exception instance of class [Exception], seen through [str(e)].
    Signals outside [Exception] (cancellation, interpreter exit) are not
    failures of an operation and stay outside the model. *)
Record Exn := { exn_str : str }.

Inductive Event :=
| EvPrint (message : Message.t)
| EvFilter (message : Message.t)
| EvFormat (message : Message.t)
| EvSend (chat_id : Z) (text : str) (parse_mode : str)
| EvLogInfo (msg : str)
| EvLogError (msg : str).

Inductive Res (A : Type) :=
| Returned (a : A)
| Raised (e : Exn).

Arguments Returned {A} a.
Arguments Raised {A} e.

Section Effects.

Variable World : Type.

Definition M (A : Type) : Type := World -> Res A * World * list Event.

Definition ret {A} (a : A) : M A := fun w => (Returned a, w, []).

Definition bind {A B} (c : M A) (k : A -> M B) : M B :=
  fun w =>
    match c w with
    | (Returned a, w1, t1) =>
        let '(r, w2, t2) := k a w1 in (r, w2, t1 ++ t2)
    | (Raised e, w1, t1) => (Raised e, w1, t1)
    end.

Definition raise {A} (e : Exn) : M A := fun w => (Raised e, w, []).

Definition emit (ev : Event) : M unit := fun w => (Returned tt, w, [ev]).

(** [try: body / except Exception as e: handler e] *)
Definition try_except {A} (body : M A) (handler : Exn -> M A) : M A :=
  fun w =>
    match body w with
    | (Returned a, w1, t1) => (Returned a, w1, t1)
    | (Raised e, w1, t1) =>
        let '(r, w2, t2) := handler e w1 in (r, w2, t1 ++ t2)
    end.

(** [for x in l: body x] *)
Fixpoint for_each {A} (l : list A) (body : A -> M unit) : M unit :=
  match l with
  | [] => ret tt
  | x :: l' => bind (body x) (fun _ => for_each l' body)
  end.

End Effects.

Arguments ret {World A} a.
Arguments raise {World A} e.
Arguments emit {World} ev.
Arguments bind {World A B} c k.
Arguments try_except {World A} body handler.
Arguments for_each {World A} l body.

Declare Scope py_scope.
Delimit Scope py_scope with py.
Notation "x <- c ;; k" := (bind c (fun x => k))
  (at level 61, c at next level, right associativity) : py_scope.
Notation "c ;; k" := (bind c (fun _ => k))
  (at level 61, right associativity) : py_scope.

Definition header : str := [0x1F4E8%N] ++ lit " *New Message Detected*".

Section Handler.

Variable str_title : str -> str.
Variable str_upper : str -> str.

Variable World : Type.

(** [aiogram_bot.send_message(chat_id=, text=, parse_mode=)]: the relay is
    outside the program; a call changes the world and returns ([None]) or
    raises. *)
Variable send_message : Z -> str -> str -> World -> option Exn * World.

(** [datetime.now().strftime("%Y-%m-%d %H:%M:%S")] *)
Variable now : World -> str.

Variable cfg : Config.

Local Open Scope py_scope.

(** The call [should_process_message(message)]. *)
Definition call_should_process_message (message : Message.t) : M World bool :=
  emit (EvFilter message) ;;
  ret (should_process_message cfg message).

(** The call [await format_message_info(message)]. *)
Definition call_format_message_info (message : Message.t) : M World str :=
  emit (EvFormat message) ;;
  fun w => (Returned (format_message_info str_title str_upper (now w) message),
            w, []).

(** The call [await aiogram_bot.send_message(...)]. *)
Definition call_send_message (chat_id : Z) (text parse_mode : str)
  : M World unit :=
  emit (EvSend chat_id text parse_mode) ;;
  fun w =>
    match send_message chat_id text parse_mode w with
    | (None, w') => (Returned tt, w', [])
    | (Some e, w') => (Raised e, w', [])
    end.

(** [message.chat.id]; the attribute access raises on [None]. *)
Definition message_chat_id (message : Message.t) : M World Z :=
  match Message.chat message with
  | Some chat => ret (Chat.id chat)
  | None =>
      raise {| exn_str := lit "'NoneType' object has no attribute 'id'" |}
  end.

(** [message.from_user and message.from_user.is_self] *)
Definition from_self (message : Message.t) : bool :=
  match Message.from_user message with
  | Some sender => User.is_self sender
  | None => false
  end.

(** The body of the loop [for user_id in TARGET_USERS], with its own
    [try]/[except]. *)
Definition send_to (message_info : str) (user_id : Z) : M World unit :=
  try_except
    (call_send_message user_id
       (header ++ nl ++ nl ++ message_info) (lit "MarkdownV2") ;;
     emit (EvLogInfo (lit "Message info sent to user: "
                      ++ str_of_int user_id)))
    (fun e =>
       emit (EvLogError (lit "Failed to send message to user "
                         ++ str_of_int user_id ++ lit ": " ++ exn_str e))).

(** The handler.  The call [print(message)] is recorded as the event
    [EvPrint] and taken to return; the run in which it raises is that of
    [handle_message_printing] below. *)
Definition handle_message (message : Message.t) : M World unit :=
  emit (EvPrint message) ;;
  try_except
    (ok <- call_should_process_message message ;;
     if negb ok then ret tt
     else if from_self message then ret tt
     else
       chat_id <- message_chat_id message ;;
       emit (EvLogInfo (lit "Processing message from chat: "
                        ++ str_of_int chat_id)) ;;
       message_info <- call_format_message_info message ;;
       for_each (TARGET_USERS cfg) (send_to message_info))
    (fun e =>
       emit (EvLogError (lit "Error handling message: " ++ exn_str e))).

End Handler.

Arguments handle_message str_title str_upper {World} send_message now cfg
  message.
Arguments send_to {World} send_message message_info user_id.

(** ** Concrete runs

    An ASCII stand-in for the interpreter's case tables, a relay that can
    fail, and a few messages, used to run the definitions. *)

Module Run.

Definition ascii_upper_char (c : char) : char :=
  if ((97 <=? c) && (c <=? 122))%N then (c - 32)%N else c.

Definition ascii_lower_char (c : char) : char :=
  if ((65 <=? c) && (c <=? 90))%N then (c + 32)%N else c.

Definition ascii_is_alpha (c : char) : bool :=
  ((97 <=? c) && (c <=? 122) || (65 <=? c) && (c <=? 90))%N.

Definition str_upper (s : str) : str := map ascii_upper_char s.

(** [str.title] on ASCII: a letter is upper-cased after a non-letter and
    lower-cased after a letter. *)
Fixpoint title_from (prev_cased : bool) (s : str) : str :=
  match s with
  | [] => []
  | c :: s' =>
    (if prev_cased then ascii_lower_char c else ascii_upper_char c)
    :: title_from (ascii_is_alpha c) s'
  end.

Definition str_title (s : str) : str := title_from false s.

(** The world of the runs: the recipients the relay refuses. *)
Definition World := list Z.

Definition send_message (chat_id : Z) (text parse_mode : str) (w : World)
  : option Exn * World :=
  if int_in chat_id w
  then (Some {| exn_str := lit "Forbidden: bot was blocked by the user" |}, w)
  else (None, w).

Definition now (_ : World) : str := lit "2024-01-01 12:00:00".

Definition private_chat : Chat.t :=
  {| Chat.id := 42; Chat.type := Some {| value := lit "private" |};
     Chat.title := None; Chat.first_name := Some (lit "Ann_B");
     Chat.username := None |}.

Definition sender : User.t :=
  {| User.id := 7; User.first_name := Some (lit "Ann");
     User.last_name := Some (lit "*B*"); User.username := Some (lit "ann");
     User.is_self := false |}.

Definition myself : User.t :=
  {| User.id := 1; User.first_name := Some (lit "Me");
     User.last_name := None; User.username := None;
     User.is_self := true |}.

Definition msg (c : option Chat.t) (u : option User.t) (t : option str)
  : Message.t :=
  {| Message.id := 1001; Message.chat := c; Message.from_user := u;
     Message.text := t; Message.caption := None; Message.media := None;
     Message.reply_to_message := false; Message.forward_from := false;
     Message.forward_from_chat := false |}.

Definition photo (cap : str) : Message.t :=
  {| Message.id := 1002; Message.chat := Some private_chat;
     Message.from_user := Some sender; Message.text := Some (lit "a`b");
     Message.caption := Some cap;
     Message.media := Some {| media_str := lit "MessageMediaType.PHOTO" |};
     Message.reply_to_message := true; Message.forward_from := false;
     Message.forward_from_chat := true |}.

Definition empty_text : Message.t :=
  msg (Some private_chat) (Some sender) (Some []).

Definition from_myself : Message.t :=
  msg (Some private_chat) (Some myself) (Some (lit "note to self")).

Definition long_text (c : char) : Message.t :=
  msg (Some private_chat) (Some sender) (Some (repeat c 250)).

Definition no_private : Config :=
  with_type_flags false true true config_py.

Definition hi : Message.t :=
  msg (Some private_chat) (Some sender) (Some (lit "hi")).

Definition two_users (excluded : list Z) (min : Z) : Config :=
  {| TARGET_USERS := [11; 22]%Z; EXCLUDED_CHATS := excluded;
     MIN_MESSAGE_LENGTH := min; INCLUDE_MEDIA := true;
     INCLUDE_PRIVATE_CHATS := true; INCLUDE_GROUPS := true;
     INCLUDE_CHANNELS := true |}.

Definition run (cfg : Config) (m : Message.t) (w : World) :=
  handle_message str_title str_upper send_message now cfg m w.

End Run.

(** ** Escaping, character by character *)

Definition is_markdown_special (c : char) : bool :=
  (N.eqb c char_star || N.eqb c char_underscore || N.eqb c char_backtick).

(** What escaping is meant to do to one character: a backslash in front of
    [*], [_] and the backtick, every other character as it is. *)
Definition escape_char (c : char) : str :=
  if is_markdown_special c then [char_backslash; c] else [c].

(** The inverse reading of an escaped field: a backslash that stands in
    front of one of the three characters is dropped.  [pending] tells that
    the character before the current one was a backslash not yet output. *)
Fixpoint unescape_from (pending : bool) (s : str) : str :=
  match s with
  | [] => if pending then [char_backslash] else []
  | c :: s' =>
    if pending && is_markdown_special c then c :: unescape_from false s'
    else
      (if pending then [char_backslash] else [])
      ++ (if N.eqb c char_backslash then unescape_from true s'
          else c :: unescape_from false s')
  end.

Definition unescape (s : str) : str := unescape_from false s.

(** The number of [*], [_] and backtick characters of a string. *)
Definition count_special (s : str) : nat :=
  len (filter is_markdown_special s).

(** The length rule of a message, as the source tests it. *)
Definition too_short (cfg : Config) (m : Message.t) : bool :=
  match Message.text m with
  | Some text =>
      nonempty text && (Z.of_nat (len text) <? MIN_MESSAGE_LENGTH cfg)%Z
  | None => false
  end.

(** A line of a report: [out] is the join of lines among which [line]
    stands. *)
Definition renders_line (out line : str) : Prop :=
  exists before after, out = join nl (before ++ line :: after).

(** ** Observing a run of the handler *)

Definition is_filter (ev : Event) : bool :=
  match ev with EvFilter _ => true | _ => false end.

Definition is_format (ev : Event) : bool :=
  match ev with EvFormat _ => true | _ => false end.

(** The send attempts of a trace, in order: recipient, text, parse mode. *)
Definition sends (t : list Event) : list (Z * str * str) :=
  flat_map (fun ev =>
              match ev with
              | EvSend u text mode => [(u, text, mode)]
              | _ => []
              end) t.

(** The recipients of the send attempts of a trace, in order. *)
Definition recipients (t : list Event) : list Z :=
  map (fun a => fst (fst a)) (sends t).

Definition result_of {World A} (r : Res A * World * list Event) : Res A :=
  fst (fst r).

Definition trace_of {World A} (r : Res A * World * list Event) : list Event :=
  snd r.

(** ** Startup: [main] and the credentials of [config.py] *)

(** The three settings [config.py] reads with [os.getenv]: the value of the
    variable, [None] when it is not set. *)
Record Credentials := {
  API_ID : option str;
  API_HASH : option str;
  BOT_TOKEN : option str
}.

(** What [main] does, in order: its log records and the call
    [user_bot.run()]. *)
Inductive StartupEvent :=
| StartInfo (msg : str)
| StartError (msg : str)
| StartWarning (msg : str)
| RunUserBot.

Definition main (cred : Credentials) (cfg : Config) : list StartupEvent :=
  [ StartInfo (lit "Starting Telegram Message Monitor...") ]
  ++ (if negb (truthy (API_ID cred)) || negb (truthy (API_HASH cred))
      then [ StartError (lit "API_ID and API_HASH must be configured!") ]
      else if negb (truthy (BOT_TOKEN cred))
      then [ StartError (lit "BOT_TOKEN must be configured!") ]
      else
        (match TARGET_USERS cfg with
         | [] =>
           [ StartWarning (lit "No target users configured! Please add user IDs to TARGET_USERS in config.py") ]
         | _ :: _ => []
         end)
        ++ [ RunUserBot ]).

Definition is_start_error (ev : StartupEvent) : bool :=
  match ev with StartError _ => true | _ => false end.

Definition is_start_warning (ev : StartupEvent) : bool :=
  match ev with StartWarning _ => true | _ => false end.

(** ** Further observations *)

(** The chat-type rule of the filter, as the source tests it. *)
Definition type_rejected (cfg : Config) (chat : Chat.t) : bool :=
  match Chat.type chat with
  | Some ty =>
    str_eqb (value ty) (lit "private") && negb (INCLUDE_PRIVATE_CHATS cfg)
    || str_in (value ty) [lit "group"; lit "supergroup"]
       && negb (INCLUDE_GROUPS cfg)
    || str_eqb (value ty) (lit "channel") && negb (INCLUDE_CHANNELS cfg)
  | None => false
  end.

(** The media rule of the filter, as the source tests it. *)
Definition media_rejected (cfg : Config) (m : Message.t) : bool :=
  match Message.media m with
  | Some _ => negb (INCLUDE_MEDIA cfg)
  | None => false
  end.

(** What the filter reads of a chat: its id and the value of its type. *)
Definition chat_key (m : Message.t) : option (Z * option str) :=
  match Message.chat m with
  | Some chat =>
    Some (Chat.id chat,
          match Chat.type chat with Some ty => Some (value ty) | None => None end)
  | None => None
  end.

Definition has_media (m : Message.t) : bool :=
  match Message.media m with Some _ => true | None => false end.

Definition with_caption (x : option str) (m : Message.t) : Message.t :=
  {| Message.id := Message.id m; Message.chat := Message.chat m;
     Message.from_user := Message.from_user m; Message.text := Message.text m;
     Message.caption := x; Message.media := Message.media m;
     Message.reply_to_message := Message.reply_to_message m;
     Message.forward_from := Message.forward_from m;
     Message.forward_from_chat := Message.forward_from_chat m |}.

Definition with_media (x : option MessageMediaType) (m : Message.t)
  : Message.t :=
  {| Message.id := Message.id m; Message.chat := Message.chat m;
     Message.from_user := Message.from_user m; Message.text := Message.text m;
     Message.caption := Message.caption m; Message.media := x;
     Message.reply_to_message := Message.reply_to_message m;
     Message.forward_from := Message.forward_from m;
     Message.forward_from_chat := Message.forward_from_chat m |}.

(** Every [*], [_] and backtick of [s] stands right after a backslash;
    [prev] tells whether the character before [s] is a backslash. *)
Fixpoint specials_escaped (prev : bool) (s : str) : bool :=
  match s with
  | [] => true
  | c :: s' =>
    (if is_markdown_special c then prev else true)
    && specials_escaped (N.eqb c char_backslash) s'
  end.

(** A string that does not begin, or does not end, with whitespace. *)
Definition starts_clean (s : str) : Prop :=
  match s with
  | [] => True
  | c :: _ => is_space c = false
  end.

Definition ends_clean (s : str) : Prop := starts_clean (rev s).

Definition all_space (s : str) : Prop :=
  Forall (fun c => is_space c = true) s.

(** The number of newline characters of a string. *)
Definition count_newlines (s : str) : nat := count_occ N.eq_dec s 10%N.

Definition is_log_error (ev : Event) : bool :=
  match ev with EvLogError _ => true | _ => false end.

(** The number of entries of [info_parts], from what the message
    carries. *)
Definition entry_count (m : Message.t) : nat :=
  2
  + (match Message.chat m with Some _ => 4 | None => 0 end)
  + (match Message.from_user m with Some _ => 3 | None => 0 end)
  + (if truthy (Message.text m) then 1 else 0)
  + (match Message.media m with
     | Some _ => 1 + (if truthy (Message.caption m) then 1 else 0)
     | None => 0
     end)
  + (if Message.reply_to_message m then 1 else 0)
  + (if Message.forward_from m || Message.forward_from_chat m then 1 else 0).

(** ** The expected shape of the delivery loop *)

Section Delivery.

Variable World : Type.
Variable send_message : Z -> str -> str -> World -> option Exn * World.

(** The log record that follows a send attempt: an info record when the
    call returned, an error record with [str(e)] when it raised [e]. *)
Definition attempt_log (user_id : Z) (outcome : option Exn) : Event :=
  match outcome with
  | None =>
    EvLogInfo (lit "Message info sent to user: " ++ str_of_int user_id)
  | Some e =>
    EvLogError (lit "Failed to send message to user " ++ str_of_int user_id
                ++ lit ": " ++ exn_str e)
  end.

(** The attempts on the recipients [l] one after the other, each made in
    the world the previous one left, each followed by its log record. *)
Fixpoint delivery_trace (text : str) (l : list Z) (w : World) : list Event :=
  match l with
  | [] => []
  | u :: l' =>
    [ EvSend u text (lit "MarkdownV2");
      attempt_log u (fst (send_message u text (lit "MarkdownV2") w)) ]
    ++ delivery_trace text l' (snd (send_message u text (lit "MarkdownV2") w))
  end.

(** The world after the attempts on the recipients [l]. *)
Definition delivery_world (text : str) (l : list Z) (w : World) : World :=
  fold_left (fun w u => snd (send_message u text (lit "MarkdownV2") w)) l w.

End Delivery.

Arguments delivery_trace {World} send_message text l w.
Arguments delivery_world {World} send_message text l w.

(** The record the outer [except] clause of the handler writes. *)
Definition is_handler_error (ev : Event) : bool :=
  match ev with
  | EvLogError msg => startswith (lit "Error handling message: ") msg
  | _ => false
  end.

Definition sample_credentials (token : option str) : Credentials :=
  {| API_ID := Some (lit "12345"); API_HASH := Some (lit "0123abcd");
     BOT_TOKEN := token |}.

(** A chat with a bot: a type value the filter does not name. *)
Definition bot_chat : Chat.t :=
  {| Chat.id := 77; Chat.type := Some {| value := lit "bot" |};
     Chat.title := None; Chat.first_name := Some (lit "Helper");
     Chat.username := Some (lit "helper_bot") |}.

Definition photo_rejecting : Config :=
  {| TARGET_USERS := [11%Z]; EXCLUDED_CHATS := []; MIN_MESSAGE_LENGTH := 1;
     INCLUDE_MEDIA := false; INCLUDE_PRIVATE_CHATS := true;
     INCLUDE_GROUPS := true; INCLUDE_CHANNELS := true |}.

Definition no_recipients : Config :=
  {| TARGET_USERS := []; EXCLUDED_CHATS := []; MIN_MESSAGE_LENGTH := 1;
     INCLUDE_MEDIA := true; INCLUDE_PRIVATE_CHATS := true;
     INCLUDE_GROUPS := true; INCLUDE_CHANNELS := true |}.

(** A relay that accepts every message and keeps no state. *)
Definition reliable_send (chat_id : Z) (text parse_mode : str) (w : unit)
  : option Exn * unit := (None, w).

Definition fixed_clock (_ : unit) : str := lit "2024-01-01 12:00:00".

(** ** The handler with the outcome of [print] made explicit

    [print(message)] stands before the [try] of the handler and writes to
    the standard output, which can raise (an encoding error, a closed
    stream).  [handle_message] is the run in which the print returns; here
    the print is a call to the outside like the relay, and a raise of it
    leaves the handler at once. *)

Section Printing.

Variable str_title : str -> str.
Variable str_upper : str -> str.
Variable World : Type.
Variable send_message : Z -> str -> str -> World -> option Exn * World.
Variable now : World -> str.
Variable print_message : Message.t -> World -> option Exn * World.
Variable cfg : Config.

Definition handle_message_printing (message : Message.t) : M World unit :=
  fun w =>
    match print_message message w with
    | (None, w') =>
      handle_message str_title str_upper send_message now cfg message w'
    | (Some e, w') => (Raised e, w', [EvPrint message])
    end.

End Printing.

Arguments handle_message_printing str_title str_upper {World} send_message
  now print_message cfg message.

(** A standard output that cannot encode the message. *)
Definition failing_print (message : Message.t) (w : Run.World)
  : option Exn * Run.World :=
  (Some {| exn_str := lit "UnicodeEncodeError: 'ascii' codec can't encode character" |},
   w).

Definition working_print (message : Message.t) (w : Run.World)
  : option Exn * Run.World := (None, w).

(** ** The definitions on sample inputs *)

Example str_of_int_negative :
  str_of_int (-1001234567890) = lit "-1001234567890".
Proof. reflexivity. Qed.

Example strip_sample : strip ([9%N] ++ lit "  a b " ++ [0xA0%N]) = lit "a b".
Proof. reflexivity. Qed.

Example sender_name_without_last_name :
  sender_display_name Run.myself = lit "Me".
Proof. reflexivity. Qed.

Example media_kind_sample :
  split_last char_dot (lit "MessageMediaType.PHOTO") = lit "PHOTO".
Proof. reflexivity. Qed.

Example replace_without_overlap :
  replace (lit "aa") (lit "b") (lit "aaaaa") = lit "bba".
Proof. reflexivity. Qed.

Example escape_sample :
  escape_markdown (lit "a*b_c`d\e") = lit "a\*b\_c\`d\e".
Proof. reflexivity. Qed.

Example report_sample :
  info_parts Run.str_title Run.str_upper (lit "2024-01-01 12:00:00")
    (Run.photo (lit "cap_*"))
  = [ label_time ++ lit "2024-01-01 12:00:00";
      label_chat ++ lit "Ann\_B";
      label_type ++ lit "Private";
      label_username ++ lit "No username";
      label_chat_id ++ lit "42`";
      label_sender ++ lit "Ann \*B\*";
      label_sender_username ++ lit "@ann";
      label_sender_id ++ lit "7`";
      label_text ++ lit "a\`b";
      label_media ++ lit "PHOTO";
      label_caption ++ lit "cap\_\*";
      line_reply;
      line_forwarded;
      label_message_id ++ lit "1002`" ].
Proof. reflexivity. Qed.

Example filter_sample :
  should_process_message config_py Run.hi = true
  /\ should_process_message (Run.two_users [] 3) Run.hi = false
  /\ should_process_message Run.no_private Run.hi = false
  /\ should_process_message config_py (Run.msg None None None) = false.
Proof. repeat split. Qed.

(** A run in which the relay refuses the first of two recipients. *)
Example run_with_failed_delivery :
  Run.run (Run.two_users [] 1) Run.hi [11%Z]
  = (Returned tt, [11%Z],
     [ EvPrint Run.hi;
       EvFilter Run.hi;
       EvLogInfo (lit "Processing message from chat: 42");
       EvFormat Run.hi;
       EvSend 11
         (header ++ nl ++ nl
          ++ format_message_info Run.str_title Run.str_upper
               (lit "2024-01-01 12:00:00") Run.hi)
         (lit "MarkdownV2");
       EvLogError (lit "Failed to send message to user 11: Forbidden: bot was blocked by the user");
       EvSend 22
         (header ++ nl ++ nl
          ++ format_message_info Run.str_title Run.str_upper
               (lit "2024-01-01 12:00:00") Run.hi)
         (lit "MarkdownV2");
       EvLogInfo (lit "Message info sent to user: 22") ]).
Proof. reflexivity. Qed.

(** ** String facts *)

Lemma startswith_single (o : char) (c : char) (s : str) :
  startswith [o] (c :: s) = N.eqb c o.
Proof.
  simpl. rewrite andb_true_r. apply N.eqb_sym.
Qed.

Lemma replace_single (o : char) (new s : str) :
  replace [o] new s = flat_map (fun c => if N.eqb c o then new else [c]) s.
Proof.
  unfold replace.
  induction s as [|c s IH]; [reflexivity|].
  cbn [replace_from flat_map].
  rewrite startswith_single. cbn [List.length pred].
  destruct (N.eqb c o); rewrite IH; reflexivity.
Qed.

Lemma escape_markdown_cons (c : char) (s : str) :
  escape_markdown (c :: s) = escape_char c ++ escape_markdown s.
Proof.
  unfold escape_markdown. rewrite !replace_single.
  unfold escape_char, is_markdown_special.
  cbn [flat_map].
  destruct (N.eqb_spec c char_star) as [->|Hs].
  - cbn. reflexivity.
  - cbn [app flat_map orb].
    destruct (N.eqb_spec c char_underscore) as [->|Hu].
    + cbn. reflexivity.
    + cbn [app flat_map orb].
      destruct (N.eqb_spec c char_backtick) as [->|Hb]; reflexivity.
Qed.

Lemma escape_markdown_flat_map (s : str) :
  escape_markdown s = flat_map escape_char s.
Proof.
  induction s as [|c s IH]; [reflexivity|].
  rewrite escape_markdown_cons, IH. reflexivity.
Qed.

Lemma escape_markdown_app (a b : str) :
  escape_markdown (a ++ b) = escape_markdown a ++ escape_markdown b.
Proof.
  rewrite !escape_markdown_flat_map. apply flat_map_app.
Qed.

Lemma escape_markdown_ellipsis : escape_markdown ellipsis = ellipsis.
Proof. reflexivity. Qed.

Lemma escape_markdown_length (s : str) :
  len (escape_markdown s) = len s + count_special s.
Proof.
  rewrite escape_markdown_flat_map. unfold count_special.
  induction s as [|c s IH]; [reflexivity|].
  cbn [flat_map filter]. rewrite length_app, IH. unfold escape_char.
  destruct (is_markdown_special c); cbn [List.length]; lia.
Qed.

Lemma count_special_le (s : str) : count_special s <= len s.
Proof. apply filter_length_le. Qed.

Lemma escape_markdown_plain (s : str) :
  count_special s = 0 -> escape_markdown s = s.
Proof.
  rewrite escape_markdown_flat_map. unfold count_special.
  induction s as [|c s IH]; [reflexivity|].
  cbn [flat_map filter]. unfold escape_char at 1.
  destruct (is_markdown_special c); cbn [List.length]; [discriminate|].
  intros H. rewrite (IH H). reflexivity.
Qed.

Lemma backslash_not_special : is_markdown_special char_backslash = false.
Proof. reflexivity. Qed.

Lemma unescape_from_escape (s : str) :
  unescape_from false (flat_map escape_char s) = s
  /\ unescape_from true (flat_map escape_char s) = char_backslash :: s.
Proof.
  induction s as [|c s [IHf IHt]]; [split; reflexivity|].
  cbn [flat_map]. unfold escape_char at 1 3.
  destruct (is_markdown_special c) eqn:Hc.
  - cbn [app unescape_from andb].
    rewrite backslash_not_special, N.eqb_refl, Hc, IHf. split; reflexivity.
  - cbn [app unescape_from andb]. rewrite Hc.
    destruct (N.eqb_spec c char_backslash) as [->|Hb].
    + rewrite IHt. split; reflexivity.
    + rewrite IHf. split; reflexivity.
Qed.

Lemma unescape_escape_markdown (s : str) :
  unescape (escape_markdown s) = s.
Proof.
  rewrite escape_markdown_flat_map. apply unescape_from_escape.
Qed.

(** ** The formatter's lines *)

Section FormatterFacts.

Variable str_title : str -> str.
Variable str_upper : str -> str.

Lemma info_parts_renders (timestamp : str) (m : Message.t) (line : str) :
  In line (info_parts str_title str_upper timestamp m) ->
  renders_line (format_message_info str_title str_upper timestamp m) line.
Proof.
  intros H. apply in_split in H. destruct H as (before & after & H).
  exists before, after. unfold format_message_info. rewrite H. reflexivity.
Qed.

Lemma chat_line_in (timestamp : str) (m : Message.t) (line : str) :
  In line (chat_lines str_title m) -> In line (info_parts str_title str_upper timestamp m).
Proof.
  intros H. unfold info_parts.
  rewrite !in_app_iff. tauto.
Qed.

Lemma sender_line_in (timestamp : str) (m : Message.t) (line : str) :
  In line (sender_lines m) -> In line (info_parts str_title str_upper timestamp m).
Proof.
  intros H. unfold info_parts.
  rewrite !in_app_iff. tauto.
Qed.

Lemma text_line_in (timestamp : str) (m : Message.t) (line : str) :
  In line (text_lines m) -> In line (info_parts str_title str_upper timestamp m).
Proof.
  intros H. unfold info_parts.
  rewrite !in_app_iff. tauto.
Qed.

Lemma media_line_in (timestamp : str) (m : Message.t) (line : str) :
  In line (media_lines str_upper m) -> In line (info_parts str_title str_upper timestamp m).
Proof.
  intros H. unfold info_parts.
  rewrite !in_app_iff. tauto.
Qed.

Lemma text_lines_nonempty (m : Message.t) (text : str) :
  Message.text m = Some text -> nonempty text = true ->
  text_lines m = [label_text ++ escape_markdown (preview 200 text)].
Proof.
  intros Ht Hn. unfold text_lines. rewrite Ht, Hn. reflexivity.
Qed.

Lemma caption_line_in (m : Message.t) (media : MessageMediaType)
      (caption : str) :
  Message.media m = Some media -> Message.caption m = Some caption ->
  nonempty caption = true ->
  media_lines str_upper m =
    [label_media ++ str_upper (split_last char_dot (media_str media));
     label_caption ++ escape_markdown (preview 100 caption)].
Proof.
  intros Hm Hc Hn. unfold media_lines. rewrite Hm, Hc, Hn. reflexivity.
Qed.

Lemma preview_long (n : nat) (s : str) :
  n < len s -> preview n s = firstn n s ++ ellipsis.
Proof.
  intros H. unfold preview.
  destruct (Nat.ltb_spec n (len s)); [reflexivity|lia].
Qed.

Lemma preview_short (n : nat) (s : str) :
  len s <= n -> preview n s = s.
Proof.
  intros H. unfold preview.
  destruct (Nat.ltb_spec n (len s)); [lia|reflexivity].
Qed.

Lemma escape_preview_long (n : nat) (s : str) :
  n < len s ->
  escape_markdown (preview n s) = escape_markdown (firstn n s) ++ ellipsis.
Proof.
  intros H. rewrite preview_long by assumption.
  rewrite escape_markdown_app, escape_markdown_ellipsis. reflexivity.
Qed.

Lemma long_is_nonempty (n : nat) (s : str) : n < len s -> nonempty s = true.
Proof. destruct s; cbn; [lia|reflexivity]. Qed.

(** C2: the three chained replacements put one backslash before every
    [*], [_] and backtick and leave every other character as it is, and
    dropping the added backslashes gives the field back.  The report is,
    line by line, what is written below: the chat title, the sender's
    display name, the text preview and the caption preview occur in it in
    this escaped form, each once after its label, and in no other line. *)
Theorem free_text_fields_escaped (timestamp : str) (m : Message.t) :
  (forall s, escape_markdown s = flat_map escape_char s
             /\ unescape (escape_markdown s) = s)
  /\ format_message_info str_title str_upper timestamp m
     = join nl
         ([ label_time ++ timestamp ]
          ++ match Message.chat m with
             | Some chat =>
               [ label_chat
                 ++ flat_map escape_char
                      (py_or (Chat.title chat)
                         (py_or (Chat.first_name chat) (lit "Unknown")));
                 label_type
                 ++ str_title match Chat.type chat with
                              | Some ty => value ty
                              | None => lit "unknown"
                              end;
                 label_username ++ username_or_default (Chat.username chat);
                 label_chat_id ++ str_of_int (Chat.id chat) ++ lit "`" ]
             | None => []
             end
          ++ match Message.from_user m with
             | Some sender =>
               [ label_sender
                 ++ flat_map escape_char (sender_display_name sender);
                 label_sender_username
                 ++ username_or_default (User.username sender);
                 label_sender_id ++ str_of_int (User.id sender) ++ lit "`" ]
             | None => []
             end
          ++ match Message.text m with
             | Some text =>
               if nonempty text
               then [ label_text ++ flat_map escape_char (preview 200 text) ]
               else []
             | None => []
             end
          ++ match Message.media m with
             | Some media =>
               [ label_media
                 ++ str_upper (split_last char_dot (media_str media)) ]
               ++ match Message.caption m with
                  | Some caption =>
                    if nonempty caption
                    then [ label_caption
                           ++ flat_map escape_char (preview 100 caption) ]
                    else []
                  | None => []
                  end
             | None => []
             end
          ++ (if Message.reply_to_message m then [ line_reply ] else [])
          ++ (if Message.forward_from m || Message.forward_from_chat m
              then [ line_forwarded ] else [])
          ++ [ label_message_id ++ str_of_int (Message.id m) ++ lit "`" ])
  /\ (forall chat, Message.chat m = Some chat ->
        renders_line (format_message_info str_title str_upper timestamp m)
          (label_chat ++ flat_map escape_char
             (py_or (Chat.title chat)
                (py_or (Chat.first_name chat) (lit "Unknown")))))
  /\ (forall sender, Message.from_user m = Some sender ->
        renders_line (format_message_info str_title str_upper timestamp m)
          (label_sender
           ++ flat_map escape_char (sender_display_name sender)))
  /\ (forall text, Message.text m = Some text -> nonempty text = true ->
        renders_line (format_message_info str_title str_upper timestamp m)
          (label_text ++ flat_map escape_char (preview 200 text)))
  /\ (forall media caption,
        Message.media m = Some media ->
        Message.caption m = Some caption -> nonempty caption = true ->
        renders_line (format_message_info str_title str_upper timestamp m)
          (label_caption ++ flat_map escape_char (preview 100 caption))).
Proof.
  split; [|split; [|split; [|split; [|split]]]].
  - intros s. split.
    + apply escape_markdown_flat_map.
    + apply unescape_escape_markdown.
  - unfold format_message_info, info_parts, chat_lines, sender_lines,
      text_lines, media_lines, additional_lines.
    f_equal. f_equal. f_equal; [|f_equal; [|f_equal; [|f_equal]]].
    + destruct (Message.chat m) as [chat|]; [|reflexivity].
      cbn zeta. rewrite escape_markdown_flat_map. reflexivity.
    + destruct (Message.from_user m) as [sender|]; [|reflexivity].
      cbn zeta. rewrite escape_markdown_flat_map. reflexivity.
    + destruct (Message.text m) as [text|]; [|reflexivity].
      destruct (nonempty text); [|reflexivity].
      cbn zeta. rewrite escape_markdown_flat_map. reflexivity.
    + destruct (Message.media m) as [media|]; [|reflexivity].
      cbn zeta. f_equal.
      destruct (Message.caption m) as [caption|]; [|reflexivity].
      destruct (nonempty caption); [|reflexivity].
      rewrite escape_markdown_flat_map. reflexivity.
  - intros chat Hc. apply info_parts_renders, chat_line_in.
    unfold chat_lines. rewrite Hc, escape_markdown_flat_map.
    left. reflexivity.
  - intros sender Hs. apply info_parts_renders, sender_line_in.
    unfold sender_lines. rewrite Hs, escape_markdown_flat_map.
    left. reflexivity.
  - intros text Ht Hn. apply info_parts_renders, text_line_in.
    rewrite (text_lines_nonempty m text Ht Hn), escape_markdown_flat_map.
    left. reflexivity.
  - intros media caption Hm Hc Hn. apply info_parts_renders, media_line_in.
    rewrite (caption_line_in m media caption Hm Hc Hn), escape_markdown_flat_map.
    right. left. reflexivity.
Qed.

Lemma text_line_long (m : Message.t) (text : str) :
  Message.text m = Some text -> 200 < len text ->
  text_lines m
  = [label_text ++ escape_markdown (firstn 200 text) ++ ellipsis].
Proof.
  intros Ht Hl.
  rewrite (text_lines_nonempty m text Ht (long_is_nonempty 200 text Hl)).
  rewrite escape_preview_long by assumption. reflexivity.
Qed.

Lemma caption_line_long (m : Message.t) (media : MessageMediaType)
      (caption : str) :
  Message.media m = Some media -> Message.caption m = Some caption ->
  100 < len caption ->
  media_lines str_upper m =
    [label_media ++ str_upper (split_last char_dot (media_str media));
     label_caption ++ escape_markdown (firstn 100 caption) ++ ellipsis].
Proof.
  intros Hm Hc Hl.
  rewrite (caption_line_in m media caption Hm Hc (long_is_nonempty 100 caption Hl)).
  rewrite escape_preview_long by assumption. reflexivity.
Qed.

Lemma escaped_prefix_bounds (n : nat) (s : str) :
  n < len s ->
  len (escape_markdown (firstn n s)) = n + count_special (firstn n s)
  /\ n <= len (escape_markdown (firstn n s)) <= 2 * n.
Proof.
  intros H. rewrite escape_markdown_length.
  pose proof (count_special_le (firstn n s)) as Hc.
  rewrite length_firstn in *. lia.
Qed.

(** C3: a text longer than 200 characters gives the text line made of
    its first 200 characters (escaped) and the ellipsis; a text of 200
    characters is rendered whole, without ellipsis; a caption longer than
    100 characters gives its first 100 characters (escaped) and the
    ellipsis.  Where the kept characters hold none of [*], [_] and the
    backtick, the line holds them literally. *)
Theorem preview_truncation (timestamp : str) (m : Message.t) :
  (forall text, Message.text m = Some text -> 200 < len text ->
     text_lines m
     = [label_text ++ escape_markdown (firstn 200 text) ++ ellipsis]
     /\ renders_line (format_message_info str_title str_upper timestamp m)
          (label_text ++ escape_markdown (firstn 200 text) ++ ellipsis)
     /\ (count_special (firstn 200 text) = 0 ->
         text_lines m = [label_text ++ firstn 200 text ++ ellipsis]))
  /\ (forall text, Message.text m = Some text -> len text = 200 ->
       text_lines m = [label_text ++ escape_markdown text]
       /\ renders_line (format_message_info str_title str_upper timestamp m)
            (label_text ++ escape_markdown text)
       /\ (count_special text = 0 -> text_lines m = [label_text ++ text]))
  /\ (forall media caption,
       Message.media m = Some media ->
       Message.caption m = Some caption -> 100 < len caption ->
       renders_line (format_message_info str_title str_upper timestamp m)
         (label_caption ++ escape_markdown (firstn 100 caption) ++ ellipsis)
       /\ (count_special (firstn 100 caption) = 0 ->
           renders_line
             (format_message_info str_title str_upper timestamp m)
             (label_caption ++ firstn 100 caption ++ ellipsis))).
Proof.
  split; [|split].
  - intros text Ht Hl. pose proof (text_line_long m text Ht Hl) as E.
    split; [exact E|split].
    + apply info_parts_renders, text_line_in. rewrite E. left. reflexivity.
    + intros Hp. rewrite E, (escape_markdown_plain _ Hp). reflexivity.
  - intros text Ht Hl.
    assert (Hn : nonempty text = true) by (apply (long_is_nonempty 199); lia).
    pose proof (text_lines_nonempty m text Ht Hn) as E.
    rewrite preview_short in E by lia.
    split; [exact E|split].
    + apply info_parts_renders, text_line_in. rewrite E. left. reflexivity.
    + intros Hp. rewrite E, (escape_markdown_plain _ Hp). reflexivity.
  - intros media caption Hm Hc Hl.
    pose proof (caption_line_long m media caption Hm Hc Hl) as E.
    assert (R : renders_line
                  (format_message_info str_title str_upper timestamp m)
                  (label_caption ++ escape_markdown (firstn 100 caption)
                   ++ ellipsis)).
    { apply info_parts_renders, media_line_in. rewrite E.
      right. left. reflexivity. }
    split; [exact R|].
    intros Hp. rewrite (escape_markdown_plain _ Hp) in R. exact R.
Qed.

(** C9: the text is cut to its first 200 characters first and escaped
    afterwards: the text line holds, after the label, each of these 200
    characters with [*], [_] and the backtick turned into two characters,
    then the ellipsis unescaped; the escaped part has 200 characters plus
    one per escaped character, at most 400, and 400 are reached.  The
    same holds for the caption with 100 and 200. *)
Theorem escaping_follows_truncation (timestamp : str) (m : Message.t) :
  (forall text, Message.text m = Some text -> 200 < len text ->
     text_lines m
     = [label_text ++ flat_map escape_char (firstn 200 text) ++ ellipsis]
     /\ renders_line (format_message_info str_title str_upper timestamp m)
          (label_text ++ flat_map escape_char (firstn 200 text)
           ++ ellipsis)
     /\ len (flat_map escape_char (firstn 200 text))
        = 200 + count_special (firstn 200 text)
     /\ 200 <= len (flat_map escape_char (firstn 200 text)) <= 400)
  /\ (forall media caption,
       Message.media m = Some media ->
       Message.caption m = Some caption -> 100 < len caption ->
       renders_line (format_message_info str_title str_upper timestamp m)
         (label_caption ++ flat_map escape_char (firstn 100 caption)
          ++ ellipsis)
       /\ len (flat_map escape_char (firstn 100 caption))
          = 100 + count_special (firstn 100 caption)
       /\ 100 <= len (flat_map escape_char (firstn 100 caption)) <= 200)
  /\ (exists text, 200 < len text
                   /\ len (escape_markdown (firstn 200 text)) = 400)
  /\ (exists caption, 100 < len caption
                      /\ len (escape_markdown (firstn 100 caption)) = 200).
Proof.
  split; [|split; [|split]].
  - intros text Ht Hl. pose proof (text_line_long m text Ht Hl) as E.
    pose proof (escaped_prefix_bounds _ _ Hl) as B.
    rewrite escape_markdown_flat_map in *.
    split; [exact E|split; [|exact B]].
    apply info_parts_renders, text_line_in. rewrite E. left. reflexivity.
  - intros media caption Hm Hc Hl.
    pose proof (caption_line_long m media caption Hm Hc Hl) as E.
    pose proof (escaped_prefix_bounds _ _ Hl) as B.
    rewrite escape_markdown_flat_map in *.
    split; [|exact B].
    apply info_parts_renders, media_line_in. rewrite E.
    right. left. reflexivity.
  - exists (repeat char_star 250). split; [cbn; lia|].
    vm_compute. reflexivity.
  - exists (repeat char_underscore 101). split; [cbn; lia|].
    vm_compute. reflexivity.
Qed.

End FormatterFacts.

(** ** The filter's rules *)

Lemma str_eqb_eq (a b : str) : str_eqb a b = true <-> a = b.
Proof.
  unfold str_eqb. destruct (list_eq_dec N.eq_dec a b); split; congruence.
Qed.

Lemma str_eqb_refl (a : str) : str_eqb a a = true.
Proof. apply str_eqb_eq. reflexivity. Qed.

Lemma str_eqb_neq (a b : str) : a <> b -> str_eqb a b = false.
Proof.
  intros H. destruct (str_eqb a b) eqn:E; [|reflexivity].
  apply str_eqb_eq in E. contradiction.
Qed.

Lemma int_in_In (x : Z) (l : list Z) : int_in x l = true <-> In x l.
Proof.
  unfold int_in. rewrite existsb_exists. split.
  - intros (y & Hy & E). apply Z.eqb_eq in E. subst. assumption.
  - intros H. exists x. split; [assumption|apply Z.eqb_refl].
Qed.

Lemma should_process_message_length (cfg : Config) (m : Message.t) :
  should_process_message cfg m
  = should_process_message cfg (Message.with_text None m)
    && negb (too_short cfg m).
Proof.
  unfold should_process_message, too_short.
  cbn [Message.with_text Message.chat Message.text Message.media].
  destruct (Message.chat m) as [chat|]; [|reflexivity].
  destruct (int_in (Chat.id chat) (EXCLUDED_CHATS cfg)); [reflexivity|].
  destruct (match Chat.type chat with Some _ => _ | None => _ end);
    [reflexivity|].
  destruct (match Message.text m with Some _ => _ | None => _ end);
    destruct (match Message.media m with Some _ => _ | None => _ end);
    reflexivity.
Qed.

Lemma should_process_message_no_chat (cfg : Config) (m : Message.t) :
  Message.chat m = None -> should_process_message cfg m = false.
Proof.
  intros H. unfold should_process_message. rewrite H. reflexivity.
Qed.

Lemma should_process_message_excluded (cfg : Config) (m : Message.t)
      (chat : Chat.t) :
  Message.chat m = Some chat -> In (Chat.id chat) (EXCLUDED_CHATS cfg) ->
  should_process_message cfg m = false.
Proof.
  intros Hc Hin. apply int_in_In in Hin.
  unfold should_process_message. rewrite Hc, Hin. reflexivity.
Qed.

Lemma should_process_message_has_chat (cfg : Config) (m : Message.t) :
  should_process_message cfg m = true ->
  exists chat, Message.chat m = Some chat.
Proof.
  unfold should_process_message.
  destruct (Message.chat m) as [chat|]; [eauto|discriminate].
Qed.

Lemma should_process_message_ignores_sender (cfg : Config) (m : Message.t)
      (x : option User.t) :
  should_process_message cfg (Message.with_from_user x m)
  = should_process_message cfg m.
Proof. reflexivity. Qed.

(** C1 (as amended): with the other rules passing, a message with a
    non-empty text of length L is rejected exactly when
    L < MIN_MESSAGE_LENGTH, so a text of length MIN_MESSAGE_LENGTH is
    accepted; a message without text, or with an empty text, is not
    rejected by the length rule. *)
Theorem length_rule (cfg : Config) (m : Message.t) :
  should_process_message cfg (Message.with_text None m) = true ->
  (forall text, Message.text m = Some text -> nonempty text = true ->
     (should_process_message cfg m = false
      <-> (Z.of_nat (len text) < MIN_MESSAGE_LENGTH cfg)%Z)
     /\ (Z.of_nat (len text) = MIN_MESSAGE_LENGTH cfg ->
         should_process_message cfg m = true))
  /\ (truthy (Message.text m) = false -> should_process_message cfg m = true).
Proof.
  intros Hrest. rewrite should_process_message_length, Hrest.
  unfold too_short, truthy. cbn [andb]. split.
  - intros text Ht Hn. rewrite Ht, Hn. cbn [andb].
    destruct (Z.ltb_spec (Z.of_nat (len text)) (MIN_MESSAGE_LENGTH cfg));
      cbn [negb]; repeat split; intros; try lia; try reflexivity;
      try discriminate.
  - destruct (Message.text m) as [text|]; [|reflexivity].
    intros Hn. rewrite Hn. reflexivity.
Qed.

(** C7: a private chat is rejected when INCLUDE_PRIVATE_CHATS is false, a
    group or supergroup when INCLUDE_GROUPS is false, a channel when
    INCLUDE_CHANNELS is false; with an unset chat type, or a type value
    other than these four, the type rule rejects nothing: the answer is
    that of the other rules alone (chat not excluded, text not too short,
    media allowed), and so does not depend on the three flags. *)
Theorem chat_type_rule (cfg : Config) (m : Message.t) (chat : Chat.t) :
  Message.chat m = Some chat ->
  (forall ty, Chat.type chat = Some ty -> value ty = lit "private" ->
     INCLUDE_PRIVATE_CHATS cfg = false ->
     should_process_message cfg m = false)
  /\ (forall ty, Chat.type chat = Some ty ->
        value ty = lit "group" \/ value ty = lit "supergroup" ->
        INCLUDE_GROUPS cfg = false ->
        should_process_message cfg m = false)
  /\ (forall ty, Chat.type chat = Some ty -> value ty = lit "channel" ->
        INCLUDE_CHANNELS cfg = false ->
        should_process_message cfg m = false)
  /\ (Chat.type chat = None
      \/ (exists ty, Chat.type chat = Some ty
                     /\ value ty <> lit "private"
                     /\ value ty <> lit "group"
                     /\ value ty <> lit "supergroup"
                     /\ value ty <> lit "channel") ->
      (forall p g c,
         should_process_message (with_type_flags p g c cfg) m
         = should_process_message cfg m)
      /\ should_process_message cfg m
         = negb (int_in (Chat.id chat) (EXCLUDED_CHATS cfg))
           && negb (match Message.text m with
                    | Some text =>
                      nonempty text
                      && (Z.of_nat (len text) <? MIN_MESSAGE_LENGTH cfg)%Z
                    | None => false
                    end)
           && negb (match Message.media m with
                    | Some _ => negb (INCLUDE_MEDIA cfg)
                    | None => false
                    end)).
Proof.
  intros Hc. unfold should_process_message. rewrite Hc.
  cbn [EXCLUDED_CHATS INCLUDE_PRIVATE_CHATS INCLUDE_GROUPS INCLUDE_CHANNELS
       MIN_MESSAGE_LENGTH INCLUDE_MEDIA with_type_flags].
  destruct (int_in (Chat.id chat) (EXCLUDED_CHATS cfg));
    [repeat split; reflexivity|].
  split; [|split; [|split]].
  - intros ty Ht Hv Hf. rewrite Ht, Hv, Hf.
    rewrite (str_eqb_refl (lit "private")). reflexivity.
  - intros ty Ht Hv Hf. rewrite Ht, Hf. cbn zeta. unfold str_in.
    cbn [existsb negb].
    destruct (str_eqb (value ty) (lit "private")
              && negb (INCLUDE_PRIVATE_CHATS cfg)); [reflexivity|].
    destruct Hv as [Hv | Hv]; rewrite Hv, str_eqb_refl;
      rewrite ?orb_true_r; reflexivity.
  - intros ty Ht Hv Hf. rewrite Ht, Hv, Hf.
    rewrite (str_eqb_refl (lit "channel")). cbn zeta.
    destruct (str_eqb (lit "channel") (lit "private")
              && negb (INCLUDE_PRIVATE_CHATS cfg)); [reflexivity|].
    destruct (str_in (lit "channel") [lit "group"; lit "supergroup"]
              && negb (INCLUDE_GROUPS cfg)); reflexivity.
  - intros H.
    assert (T : forall p g c,
               match Chat.type chat with
               | Some ty =>
                 if str_eqb (value ty) (lit "private") && negb p then true
                 else if str_in (value ty) [lit "group"; lit "supergroup"]
                         && negb g then true
                 else if str_eqb (value ty) (lit "channel") && negb c
                 then true else false
               | None => false
               end = false).
    { intros p g c. destruct H as [Hn | (ty & Ht & H1 & H2 & H3 & H4)].
      - rewrite Hn. reflexivity.
      - rewrite Ht. unfold str_in. cbn [existsb].
        rewrite (str_eqb_neq _ _ H1), (str_eqb_neq _ _ H2),
          (str_eqb_neq _ _ H3), (str_eqb_neq _ _ H4).
        reflexivity. }
    split.
    + intros p g c. rewrite (T p g c), (T _ _ _). reflexivity.
    + rewrite (T _ _ _). cbn [negb andb].
      destruct (match Message.text m with Some _ => _ | None => _ end);
        [reflexivity|].
      destruct (match Message.media m with Some _ => _ | None => _ end);
        reflexivity.
Qed.

(** ** Runs of the handler *)

Lemma sends_app (a b : list Event) : sends (a ++ b) = sends a ++ sends b.
Proof. apply flat_map_app. Qed.

Section HandlerFacts.

Variable str_title : str -> str.
Variable str_upper : str -> str.
Variable World : Type.
Variable send_message : Z -> str -> str -> World -> option Exn * World.
Variable now : World -> str.
Variable cfg : Config.

Local Abbreviation run :=
  (handle_message str_title str_upper send_message now cfg).

(** The text handed to the relay for the message [m] in the world [w]. *)
Local Abbreviation relayed m w :=
  (header ++ nl ++ nl ++ format_message_info str_title str_upper (now w) m).

Lemma send_to_run (info : str) (u : Z) (w : World) :
  exists w' ev,
    send_to send_message info u w
    = (Returned tt, w',
       [EvSend u (header ++ nl ++ nl ++ info) (lit "MarkdownV2"); ev])
    /\ is_filter ev = false /\ is_format ev = false /\ sends [ev] = [].
Proof.
  unfold send_to, try_except, call_send_message, bind, emit.
  destruct (send_message u (header ++ nl ++ nl ++ info) (lit "MarkdownV2") w)
    as [[e|] w'].
  - exists w'. eexists. split; [reflexivity|]. repeat split.
  - exists w'. eexists. split; [reflexivity|]. repeat split.
Qed.

Lemma send_loop_run (info : str) (l : list Z) (w : World) :
  exists w' t,
    for_each l (send_to send_message info) w = (Returned tt, w', t)
    /\ sends t
       = map (fun u => (u, header ++ nl ++ nl ++ info, lit "MarkdownV2")) l
    /\ filter is_filter t = [] /\ filter is_format t = [].
Proof.
  revert w. induction l as [|u l IH]; intros w.
  - exists w, []. repeat split.
  - destruct (send_to_run info u w) as (w1 & ev & E & Hf & Hm & Hs).
    destruct (IH w1) as (w2 & t & E2 & S2 & F2 & M2).
    exists w2, ([EvSend u (header ++ nl ++ nl ++ info) (lit "MarkdownV2"); ev]
                ++ t).
    cbn [for_each]. unfold bind at 1. rewrite E, E2.
    split; [reflexivity|].
    rewrite sends_app, !filter_app, S2, F2, M2.
    change (sends [EvSend u (header ++ nl ++ nl ++ info) (lit "MarkdownV2"); ev])
      with ((u, header ++ nl ++ nl ++ info, lit "MarkdownV2") :: sends [ev]).
    rewrite Hs. cbn [filter is_filter is_format]. rewrite Hf, Hm.
    repeat split.
Qed.

Lemma handle_rejected (m : Message.t) (w : World) :
  should_process_message cfg m = false ->
  run m w = (Returned tt, w, [EvPrint m; EvFilter m]).
Proof.
  intros H. unfold handle_message, bind, try_except, emit,
    call_should_process_message, bind, emit, ret.
  rewrite H. reflexivity.
Qed.

Lemma handle_from_self (m : Message.t) (w : World) :
  from_self m = true ->
  run m w = (Returned tt, w, [EvPrint m; EvFilter m]).
Proof.
  intros H. unfold handle_message, bind, try_except, emit,
    call_should_process_message, bind, emit, ret.
  rewrite H. destruct (should_process_message cfg m); reflexivity.
Qed.

Lemma handle_accepted (m : Message.t) (w : World) :
  should_process_message cfg m = true -> from_self m = false ->
  exists chat w' t,
    Message.chat m = Some chat
    /\ run m w
       = (Returned tt, w',
          [EvPrint m; EvFilter m;
           EvLogInfo (lit "Processing message from chat: "
                      ++ str_of_int (Chat.id chat));
           EvFormat m] ++ t)
    /\ sends t
       = map (fun u => (u, relayed m w, lit "MarkdownV2")) (TARGET_USERS cfg)
    /\ filter is_filter t = [] /\ filter is_format t = [].
Proof.
  intros Hp Hs.
  destruct (should_process_message_has_chat cfg m Hp) as (chat & Hc).
  destruct (send_loop_run
              (format_message_info str_title str_upper (now w) m)
              (TARGET_USERS cfg) w) as (w' & t & E & S & F & M).
  exists chat, w', t. split; [assumption|]. split; [|auto].
  unfold handle_message, bind, try_except, emit,
    call_should_process_message, call_format_message_info,
    message_chat_id, bind, emit, ret.
  rewrite Hp, Hs, Hc. cbn [negb]. rewrite E. reflexivity.
Qed.

Lemma recipients_of_sends (text mode : str) (l : list Z) (t : list Event) :
  sends t = map (fun u => (u, text, mode)) l -> recipients t = l.
Proof.
  intros H. unfold recipients. rewrite H, map_map. cbn [fst].
  apply map_id.
Qed.

(** C4: a run of the handler calls the filter predicate at most once
    (exactly once); when the message passes the filter and the
    self-sender check, the run formats one report and makes its send
    attempts to the entries of TARGET_USERS, one per entry and in their
    order, so that a recipient listed once gets exactly one attempt. *)
Theorem one_pass_per_event (m : Message.t) (w : World) :
  List.length (filter is_filter (trace_of (run m w))) <= 1
  /\ filter is_filter (trace_of (run m w)) = [EvFilter m]
  /\ (should_process_message cfg m = true -> from_self m = false ->
      filter is_format (trace_of (run m w)) = [EvFormat m]
      /\ recipients (trace_of (run m w)) = TARGET_USERS cfg
      /\ (NoDup (TARGET_USERS cfg) ->
          forall u, In u (TARGET_USERS cfg) ->
            count_occ Z.eq_dec (recipients (trace_of (run m w))) u = 1)).
Proof.
  assert (F : filter is_filter (trace_of (run m w)) = [EvFilter m]).
  { destruct (should_process_message cfg m) eqn:Hp.
    - destruct (from_self m) eqn:Hs.
      + rewrite (handle_from_self m w Hs). reflexivity.
      + destruct (handle_accepted m w Hp Hs)
          as (chat & w' & t & _ & E & _ & Hf & _).
        rewrite E. unfold trace_of. cbn [snd].
        rewrite filter_app, Hf. reflexivity.
    - rewrite (handle_rejected m w Hp). reflexivity. }
  split; [rewrite F; cbn; lia|]. split; [exact F|].
  intros Hp Hs.
  destruct (handle_accepted m w Hp Hs)
    as (chat & w' & t & _ & E & S & _ & Hm).
  rewrite E. unfold trace_of. cbn [snd].
  assert (R : recipients
                ([EvPrint m; EvFilter m;
                  EvLogInfo (lit "Processing message from chat: "
                             ++ str_of_int (Chat.id chat));
                  EvFormat m] ++ t) = TARGET_USERS cfg).
  { apply (recipients_of_sends (relayed m w) (lit "MarkdownV2")).
    rewrite sends_app. exact S. }
  split; [rewrite filter_app, Hm; reflexivity|]. split; [exact R|].
  intros Hn u Hu. rewrite R.
  apply (proj1 (NoDup_count_occ' Z.eq_dec (TARGET_USERS cfg)) Hn u Hu).
Qed.

(** C5: whatever the relay does at each attempt (return or raise), a run
    on an accepted message returns normally, attempts every entry of
    TARGET_USERS, the ones after a failed attempt included, and calls the
    filter and the formatter once each. *)
Theorem delivery_failures_isolated (m : Message.t) (w : World) :
  should_process_message cfg m = true -> from_self m = false ->
  result_of (run m w) = Returned tt
  /\ recipients (trace_of (run m w)) = TARGET_USERS cfg
  /\ (forall before u after,
        TARGET_USERS cfg = before ++ u :: after ->
        forall v, In v after ->
          In (EvSend v (relayed m w) (lit "MarkdownV2"))
             (trace_of (run m w)))
  /\ filter is_filter (trace_of (run m w)) = [EvFilter m]
  /\ filter is_format (trace_of (run m w)) = [EvFormat m].
Proof.
  intros Hp Hs.
  destruct (handle_accepted m w Hp Hs)
    as (chat & w' & t & _ & E & S & Hf & Hm).
  rewrite E. unfold trace_of, result_of. cbn [fst snd].
  split; [reflexivity|]. split.
  { apply (recipients_of_sends (relayed m w) (lit "MarkdownV2")).
    rewrite sends_app. exact S. }
  split.
  { intros before u after Ht v Hv.
    apply in_or_app. right.
    assert (Hin : In (v, relayed m w, lit "MarkdownV2") (sends t)).
    { rewrite S. apply in_map_iff. exists v. split; [reflexivity|].
      rewrite Ht. apply in_or_app. right. right. exact Hv. }
    unfold sends in Hin. apply in_flat_map in Hin.
    destruct Hin as (ev & Hev & Hx).
    destruct ev; cbn in Hx; try contradiction.
    destruct Hx as [Hx|[]]. inversion Hx. subst. exact Hev. }
  split; rewrite filter_app; [rewrite Hf|rewrite Hm]; reflexivity.
Qed.

(** C6: for a message whose sender carries the is-self flag the run
    consists of the print and the call of the filter predicate only, with
    no format call and no send attempt; the predicate gives the same
    answer whatever the sender of the message is. *)
Theorem self_messages_dropped (m : Message.t) (w : World) (sender : User.t) :
  Message.from_user m = Some sender -> User.is_self sender = true ->
  trace_of (run m w) = [EvPrint m; EvFilter m]
  /\ filter is_format (trace_of (run m w)) = []
  /\ sends (trace_of (run m w)) = []
  /\ (forall x, should_process_message cfg (Message.with_from_user x m)
                = should_process_message cfg m).
Proof.
  intros Hu Hs.
  assert (Hself : from_self m = true).
  { unfold from_self. rewrite Hu. exact Hs. }
  rewrite (handle_from_self m w Hself).
  repeat split.
Qed.

(** C8: a message whose chat id is in EXCLUDED_CHATS is rejected by the
    filter whatever its other fields are, and its run makes no send
    attempt. *)
Theorem excluded_chat_dropped (m : Message.t) (w : World) (chat : Chat.t) :
  Message.chat m = Some chat -> In (Chat.id chat) (EXCLUDED_CHATS cfg) ->
  should_process_message cfg m = false
  /\ sends (trace_of (run m w)) = []
  /\ recipients (trace_of (run m w)) = [].
Proof.
  intros Hc Hin.
  pose proof (should_process_message_excluded cfg m chat Hc Hin) as Hp.
  rewrite (handle_rejected m w Hp). repeat split; assumption.
Qed.

(** C10: on an accepted message every send attempt carries the same
    text, the header line, an empty line and the report, which differs
    from the bare report; the report is formatted once, before the first
    attempt, and no attempt formats again. *)
Theorem relayed_text_has_header (m : Message.t) (w : World) :
  should_process_message cfg m = true -> from_self m = false ->
  sends (trace_of (run m w))
  = map (fun u => (u, relayed m w, lit "MarkdownV2")) (TARGET_USERS cfg)
  /\ relayed m w <> format_message_info str_title str_upper (now w) m
  /\ header = [0x1F4E8%N] ++ lit " *New Message Detected*"
  /\ (exists before after,
        trace_of (run m w) = before ++ EvFormat m :: after
        /\ sends before = [] /\ filter is_format before = []
        /\ filter is_format after = []).
Proof.
  intros Hp Hs.
  destruct (handle_accepted m w Hp Hs)
    as (chat & w' & t & _ & E & S & _ & Hm).
  rewrite E. unfold trace_of. cbn [snd].
  split; [rewrite sends_app; exact S|]. split.
  { intros H. apply (f_equal (@List.length char)) in H.
    rewrite !length_app in H. cbn in H. lia. }
  split; [reflexivity|].
  exists [EvPrint m; EvFilter m;
          EvLogInfo (lit "Processing message from chat: "
                     ++ str_of_int (Chat.id chat))], t.
  repeat split. exact Hm.
Qed.

End HandlerFacts.

(** ** The theorems on concrete runs *)

Lemma length_rule_witness :
  should_process_message (Run.two_users [] 3) (Message.with_text None Run.hi)
  = true
  /\ should_process_message (Run.two_users [] 3) Run.hi = false.
Proof.
  split; [reflexivity|].
  apply (proj1 (proj1 (length_rule (Run.two_users [] 3) Run.hi eq_refl)
                  (lit "hi") eq_refl eq_refl)).
  reflexivity.
Defined.

(** C1 as stated fails on an empty text: with the shipped configuration
    (MIN_MESSAGE_LENGTH = 1) the text has length 0 < 1, the other rules
    pass, and the message is accepted. *)
Lemma empty_text_passes_length_rule :
  Message.text Run.empty_text = Some []
  /\ should_process_message config_py (Message.with_text None Run.empty_text)
     = true
  /\ ~ (should_process_message config_py Run.empty_text = false
        <-> (Z.of_nat (len []) < MIN_MESSAGE_LENGTH config_py)%Z).
Proof.
  split; [reflexivity|]. split; [reflexivity|].
  intros [_ H]. assert (E : (Z.of_nat (len []) < MIN_MESSAGE_LENGTH config_py)%Z)
    by reflexivity.
  apply H in E. discriminate E.
Qed.

Lemma free_text_fields_escaped_witness :
  renders_line
    (format_message_info Run.str_title Run.str_upper (lit "2024-01-01 12:00:00")
       (Run.photo (lit "cap_*")))
    (label_caption ++ lit "cap\_\*").
Proof.
  apply (proj2 (proj2 (proj2 (proj2 (proj2
           (free_text_fields_escaped Run.str_title Run.str_upper
              (lit "2024-01-01 12:00:00") (Run.photo (lit "cap_*")))))))
           {| media_str := lit "MessageMediaType.PHOTO" |} (lit "cap_*")
           eq_refl eq_refl eq_refl).
Defined.

Lemma preview_truncation_witness :
  text_lines (Run.long_text 97%N)
  = [label_text ++ repeat 97%N 200 ++ ellipsis].
Proof.
  apply (proj2 (proj2 (proj1
           (preview_truncation Run.str_title Run.str_upper (lit "now")
              (Run.long_text 97%N))
           (repeat 97%N 250) eq_refl ltac:(vm_compute; lia)))).
  vm_compute. reflexivity.
Defined.

Lemma escaping_follows_truncation_witness :
  text_lines (Run.long_text char_star)
  = [label_text ++ flat_map escape_char (repeat char_star 200) ++ ellipsis].
Proof.
  apply (proj1 (proj1
           (escaping_follows_truncation Run.str_title Run.str_upper (lit "now")
              (Run.long_text char_star))
           (repeat char_star 250) eq_refl ltac:(vm_compute; lia))).
Defined.

Lemma chat_type_rule_witness :
  should_process_message Run.no_private Run.hi = false
  /\ should_process_message Run.no_private
       (Run.msg (Some bot_chat) None (Some (lit "hi"))) = true.
Proof.
  split.
  - apply (proj1 (chat_type_rule Run.no_private Run.hi Run.private_chat
                    eq_refl)
             {| value := lit "private" |} eq_refl eq_refl eq_refl).
  - assert (H : Chat.type bot_chat = None
                \/ (exists ty, Chat.type bot_chat = Some ty
                               /\ value ty <> lit "private"
                               /\ value ty <> lit "group"
                               /\ value ty <> lit "supergroup"
                               /\ value ty <> lit "channel")).
    { right. exists {| value := lit "bot" |}.
      repeat split; discriminate. }
    destruct (proj2 (proj2 (proj2
                (chat_type_rule Run.no_private
                   (Run.msg (Some bot_chat) None (Some (lit "hi")))
                   bot_chat eq_refl))) H) as [_ E].
    rewrite E. reflexivity.
Defined.

Lemma one_pass_per_event_witness :
  recipients (trace_of (Run.run (Run.two_users [] 1) Run.hi [])) = [11; 22]%Z.
Proof.
  apply (proj2 (proj2 (one_pass_per_event Run.str_title Run.str_upper _
                         Run.send_message Run.now (Run.two_users [] 1)
                         Run.hi [])) eq_refl eq_refl).
Defined.

(** The relay refuses recipient 11: the attempt for 22 is still made. *)
Lemma delivery_failures_isolated_witness :
  fst (Run.send_message 11 [] [] [11%Z]) <> None
  /\ result_of (Run.run (Run.two_users [] 1) Run.hi [11%Z]) = Returned tt
  /\ recipients (trace_of (Run.run (Run.two_users [] 1) Run.hi [11%Z]))
     = [11; 22]%Z.
Proof.
  split; [discriminate|].
  pose proof (delivery_failures_isolated Run.str_title Run.str_upper _
                Run.send_message Run.now (Run.two_users [] 1) Run.hi [11%Z]
                eq_refl eq_refl) as H.
  split; [exact (proj1 H)|exact (proj1 (proj2 H))].
Defined.

Lemma self_messages_dropped_witness :
  sends (trace_of (Run.run config_py Run.from_myself [])) = [].
Proof.
  apply (self_messages_dropped Run.str_title Run.str_upper _ Run.send_message
           Run.now config_py Run.from_myself [] Run.myself eq_refl eq_refl).
Defined.

Lemma excluded_chat_dropped_witness :
  should_process_message (Run.two_users [42%Z] 1) Run.hi = false
  /\ sends (trace_of (Run.run (Run.two_users [42%Z] 1) Run.hi [])) = [].
Proof.
  pose proof (excluded_chat_dropped Run.str_title Run.str_upper _
                Run.send_message Run.now (Run.two_users [42%Z] 1) Run.hi []
                Run.private_chat eq_refl (or_introl eq_refl)) as H.
  split; [exact (proj1 H)|exact (proj1 (proj2 H))].
Defined.

Lemma relayed_text_has_header_witness :
  sends (trace_of (Run.run config_py Run.hi []))
  = [(7517848621%Z,
      header ++ nl ++ nl
      ++ format_message_info Run.str_title Run.str_upper
           (lit "2024-01-01 12:00:00") Run.hi,
      lit "MarkdownV2")].
Proof.
  apply (proj1 (relayed_text_has_header Run.str_title Run.str_upper _
                  Run.send_message Run.now config_py Run.hi []
                  eq_refl eq_refl)).
Defined.

(** ** Further properties of the filter *)

Lemma should_process_message_rules (cfg : Config) (m : Message.t) :
  should_process_message cfg m
  = match Message.chat m with
    | None => false
    | Some chat =>
      negb (int_in (Chat.id chat) (EXCLUDED_CHATS cfg))
      && negb (type_rejected cfg chat)
      && negb (too_short cfg m)
      && negb (media_rejected cfg m)
    end.
Proof.
  unfold should_process_message, type_rejected, too_short, media_rejected.
  destruct (Message.chat m) as [chat|]; [|reflexivity].
  destruct (int_in (Chat.id chat) (EXCLUDED_CHATS cfg)); [reflexivity|].
  cbn [negb andb].
  destruct (Chat.type chat) as [ty|]; cbn zeta.
  - destruct (str_eqb (value ty) (lit "private")
              && negb (INCLUDE_PRIVATE_CHATS cfg)); [reflexivity|].
    destruct (str_in (value ty) [lit "group"; lit "supergroup"]
              && negb (INCLUDE_GROUPS cfg)); [reflexivity|].
    destruct (str_eqb (value ty) (lit "channel")
              && negb (INCLUDE_CHANNELS cfg)); [reflexivity|].
    cbn [orb negb andb].
    destruct (match Message.text m with Some _ => _ | None => _ end);
      [reflexivity|].
    destruct (match Message.media m with Some _ => _ | None => _ end);
      reflexivity.
  - cbn [negb andb].
    destruct (match Message.text m with Some _ => _ | None => _ end);
      [reflexivity|].
    destruct (match Message.media m with Some _ => _ | None => _ end);
      reflexivity.
Qed.

(** X1: with the other rules passing, a message is rejected exactly when
    it carries media and INCLUDE_MEDIA is false; a message without media is
    never rejected by the media rule. *)
Theorem media_rule (cfg : Config) (m : Message.t) :
  should_process_message cfg (with_media None m) = true ->
  (should_process_message cfg m = false
   <-> has_media m = true /\ INCLUDE_MEDIA cfg = false).
Proof.
  rewrite !should_process_message_rules.
  unfold too_short, media_rejected, has_media.
  cbn [with_media Message.chat Message.text Message.media].
  destruct (Message.chat m) as [chat|]; [|discriminate].
  rewrite andb_true_r. intros ->. cbn [andb].
  destruct (Message.media m); destruct (INCLUDE_MEDIA cfg); cbn;
    split; try tauto; try discriminate; intros [? ?]; discriminate.
Qed.

Lemma nonempty_length (s : str) : nonempty s = true -> 1 <= len s.
Proof. destruct s; cbn; [discriminate|lia]. Qed.

(** X2: when MIN_MESSAGE_LENGTH is at most 1 the length rule rejects
    nothing: the filter answers as it does for the message without its
    text. *)
Theorem length_rule_idle (cfg : Config) (m : Message.t) :
  (MIN_MESSAGE_LENGTH cfg <= 1)%Z ->
  should_process_message cfg m
  = should_process_message cfg (Message.with_text None m).
Proof.
  intros H. rewrite should_process_message_length.
  assert (E : too_short cfg m = false).
  { unfold too_short. destruct (Message.text m) as [text|]; [|reflexivity].
    destruct (nonempty text) eqn:Hn; [|reflexivity].
    apply nonempty_length in Hn. cbn [andb].
    apply Z.ltb_ge. lia. }
  rewrite E. apply andb_true_r.
Qed.

(** X3: with the configuration [config.py] ships, the filter accepts
    exactly the messages that have a chat. *)
Theorem shipped_filter_accepts_every_chat (m : Message.t) :
  should_process_message config_py m = true <-> Message.chat m <> None.
Proof.
  rewrite should_process_message_rules.
  destruct (Message.chat m) as [chat|].
  - assert (T : type_rejected config_py chat = false).
    { unfold type_rejected. destruct (Chat.type chat); [|reflexivity].
      cbn [config_py INCLUDE_PRIVATE_CHATS INCLUDE_GROUPS INCLUDE_CHANNELS
           negb].
      rewrite !andb_false_r. reflexivity. }
    assert (L : too_short config_py m = false).
    { unfold too_short. destruct (Message.text m) as [text|]; [|reflexivity].
      destruct (nonempty text) eqn:Hn; [|reflexivity].
      apply nonempty_length in Hn. cbn [andb].
      apply Z.ltb_ge. cbn [config_py MIN_MESSAGE_LENGTH]. lia. }
    assert (M : media_rejected config_py m = false).
    { unfold media_rejected. destruct (Message.media m); reflexivity. }
    rewrite T, L, M. cbn. split; [discriminate|reflexivity].
  - split; [discriminate|]. intros H. contradiction.
Qed.

(** X4: the filter reads only the chat's id and type value, the text and
    the presence of media: two messages that agree on these get the same
    answer, whatever their sender, caption, titles, usernames, reply and
    forward marks and message ids are. *)
Theorem filter_reads_four_fields (cfg : Config) (m1 m2 : Message.t) :
  chat_key m1 = chat_key m2 ->
  Message.text m1 = Message.text m2 ->
  has_media m1 = has_media m2 ->
  should_process_message cfg m1 = should_process_message cfg m2.
Proof.
  intros Hk Ht Hm. rewrite !should_process_message_rules.
  unfold chat_key in Hk. unfold too_short, media_rejected.
  rewrite Ht.
  assert (M : match Message.media m1 with
              | Some _ => negb (INCLUDE_MEDIA cfg) | None => false end
            = match Message.media m2 with
              | Some _ => negb (INCLUDE_MEDIA cfg) | None => false end).
  { unfold has_media in Hm.
    destruct (Message.media m1), (Message.media m2);
      try reflexivity; discriminate. }
  rewrite M.
  destruct (Message.chat m1) as [c1|], (Message.chat m2) as [c2|];
    try discriminate; [|reflexivity].
  injection Hk as Hid Hty. rewrite Hid.
  assert (T : type_rejected cfg c1 = type_rejected cfg c2).
  { unfold type_rejected.
    destruct (Chat.type c1) as [t1|], (Chat.type c2) as [t2|];
      try discriminate; [|reflexivity].
    injection Hty as ->. reflexivity. }
  rewrite T. reflexivity.
Qed.

(** X5: loosening the configuration never rejects more: a message accepted
    under a configuration stays accepted when MIN_MESSAGE_LENGTH is lowered,
    entries are removed from EXCLUDED_CHATS and inclusion flags are switched
    on. *)
Theorem filter_monotone (strict loose : Config) (m : Message.t) :
  (MIN_MESSAGE_LENGTH loose <= MIN_MESSAGE_LENGTH strict)%Z ->
  incl (EXCLUDED_CHATS loose) (EXCLUDED_CHATS strict) ->
  (INCLUDE_MEDIA strict = true -> INCLUDE_MEDIA loose = true) ->
  (INCLUDE_PRIVATE_CHATS strict = true -> INCLUDE_PRIVATE_CHATS loose = true) ->
  (INCLUDE_GROUPS strict = true -> INCLUDE_GROUPS loose = true) ->
  (INCLUDE_CHANNELS strict = true -> INCLUDE_CHANNELS loose = true) ->
  should_process_message strict m = true ->
  should_process_message loose m = true.
Proof.
  intros Hmin Hex Hmedia Hp Hg Hc.
  rewrite !should_process_message_rules.
  destruct (Message.chat m) as [chat|]; [|discriminate].
  rewrite !andb_true_iff, !negb_true_iff.
  intros [[[He Ht] Hl] Hm]. repeat split.
  - destruct (int_in (Chat.id chat) (EXCLUDED_CHATS loose)) eqn:E;
      [|reflexivity].
    apply int_in_In in E. apply Hex in E. apply int_in_In in E. congruence.
  - unfold type_rejected in *. destruct (Chat.type chat) as [ty|];
      [|reflexivity].
    apply orb_false_iff in Ht. destruct Ht as [Ht H3].
    apply orb_false_iff in Ht. destruct Ht as [H1 H2].
    destruct (INCLUDE_PRIVATE_CHATS strict), (INCLUDE_GROUPS strict),
      (INCLUDE_CHANNELS strict);
      try rewrite (Hp eq_refl); try rewrite (Hg eq_refl);
      try rewrite (Hc eq_refl); cbn [negb] in *;
      rewrite ?andb_false_r, ?andb_true_r in *; cbn [orb];
      repeat match goal with
             | H : ?x = false |- context [?x] => rewrite H
             end; cbn [andb orb]; reflexivity.
  - unfold too_short in *. destruct (Message.text m) as [text|];
      [|reflexivity].
    destruct (nonempty text); [|reflexivity]. cbn [andb] in *.
    apply Z.ltb_ge in Hl. apply Z.ltb_ge. lia.
  - unfold media_rejected in *. destruct (Message.media m); [|reflexivity].
    apply negb_false_iff in Hm. rewrite (Hmedia Hm). reflexivity.
Qed.

(** ** Further properties of the string operations *)

Lemma lstrip_spec (s : str) :
  exists a, s = a ++ lstrip s /\ all_space a /\ starts_clean (lstrip s).
Proof.
  induction s as [|c s (a & E & Ha & Hc)].
  - exists []. repeat split. constructor.
  - cbn [lstrip]. destruct (is_space c) eqn:Hs.
    + exists (c :: a). split; [cbn; congruence|].
      split; [constructor; assumption|assumption].
    + exists []. split; [reflexivity|]. split; [constructor|exact Hs].
Qed.

Lemma rstrip_spec (s : str) :
  exists b, s = rstrip s ++ b /\ all_space b /\ ends_clean (rstrip s).
Proof.
  destruct (lstrip_spec (rev s)) as (a & E & Ha & Hc).
  exists (rev a). unfold rstrip, ends_clean. rewrite rev_involutive.
  split; [|split; [apply Forall_rev; exact Ha|exact Hc]].
  rewrite <- rev_app_distr, <- E, rev_involutive. reflexivity.
Qed.

Lemma starts_clean_prefix (s b : str) :
  starts_clean (s ++ b) -> s <> [] -> starts_clean s.
Proof. destruct s; [congruence|cbn; auto]. Qed.

Lemma lstrip_clean (s : str) : starts_clean s -> lstrip s = s.
Proof.
  destruct s as [|c s]; [reflexivity|]. cbn. intros ->. reflexivity.
Qed.

Lemma rstrip_clean (s : str) : ends_clean s -> rstrip s = s.
Proof.
  unfold ends_clean, rstrip. intros H. rewrite (lstrip_clean _ H).
  apply rev_involutive.
Qed.

Lemma strip_facts (s : str) :
  (exists a b, s = a ++ strip s ++ b /\ all_space a /\ all_space b)
  /\ starts_clean (strip s) /\ ends_clean (strip s)
  /\ (starts_clean s -> ends_clean s -> strip s = s).
Proof.
  destruct (lstrip_spec s) as (a & Ea & Ha & Hc).
  destruct (rstrip_spec (lstrip s)) as (b & Eb & Hb & Hd).
  unfold strip. repeat split.
  - exists a, b. rewrite <- Eb. auto.
  - destruct (rstrip (lstrip s)) as [|c r] eqn:E; [exact I|].
    rewrite Eb in Hc. exact Hc.
  - exact Hd.
  - intros H1 H2. rewrite (lstrip_clean _ H1). apply rstrip_clean, H2.
Qed.

(** X6: [strip] removes whitespace at both ends and nothing else: the
    string is its stripped form between two runs of whitespace, and the
    stripped form neither begins nor ends with whitespace; a string without
    whitespace at its ends is left as it is. *)
Theorem strip_spec (s : str) :
  (exists a b, s = a ++ strip s ++ b /\ all_space a /\ all_space b)
  /\ starts_clean (strip s) /\ ends_clean (strip s)
  /\ (starts_clean s -> ends_clean s -> strip s = s).
Proof. exact (strip_facts s). Qed.

Lemma split_last_snoc (sep c : char) (s : str) :
  split_last sep (s ++ [c])
  = if N.eqb c sep then [] else split_last sep s ++ [c].
Proof. unfold split_last. rewrite fold_left_app. reflexivity. Qed.

Lemma split_last_no_sep (sep : char) (s : str) :
  ~ In sep s -> split_last sep s = s.
Proof.
  induction s as [|c s IH] using rev_ind; [reflexivity|].
  intros H. rewrite split_last_snoc.
  destruct (N.eqb_spec c sep) as [->|Hne].
  - exfalso. apply H, in_or_app. right. left. reflexivity.
  - rewrite IH; [reflexivity|].
    intros Hin. apply H, in_or_app. left. exact Hin.
Qed.

Lemma split_last_after (sep : char) (a b : str) :
  split_last sep (a ++ sep :: b) = split_last sep b.
Proof.
  unfold split_last. rewrite fold_left_app. cbn [fold_left].
  rewrite N.eqb_refl. reflexivity.
Qed.

(** X7: [s.split(sep)[-1]] is the part of [s] after its last separator:
    the whole string when it holds no separator, the part [b] of
    [a + sep + b] when [b] holds none; the result never holds the
    separator. *)
Theorem split_last_spec (sep : char) (s : str) :
  (~ In sep s -> split_last sep s = s)
  /\ (forall a b, s = a ++ sep :: b -> ~ In sep b -> split_last sep s = b)
  /\ ~ In sep (split_last sep s).
Proof.
  split; [apply split_last_no_sep|]. split.
  - intros a b -> Hb. rewrite split_last_after. apply split_last_no_sep, Hb.
  - induction s as [|c s IH] using rev_ind; [intros []|].
    rewrite split_last_snoc. destruct (N.eqb_spec c sep) as [->|Hne].
    + intros [].
    + intros Hin. apply in_app_or in Hin. destruct Hin as [Hin|[Hin|[]]].
      * exact (IH Hin).
      * congruence.
Qed.

Lemma preview_length (n : nat) (s : str) : len (preview n s) <= n + 3.
Proof.
  unfold preview. destruct (Nat.ltb_spec n (len s)) as [H|H]; [|lia].
  rewrite length_app, length_firstn. cbn. lia.
Qed.

(** X8: a preview is never longer than its bound plus the three
    characters of the ellipsis, starts like the string it comes from, and
    cutting a preview again changes nothing. *)
Theorem preview_spec (n : nat) (s : str) :
  len (preview n s) <= n + 3
  /\ firstn n (preview n s) = firstn n s
  /\ preview n (preview n s) = preview n s.
Proof.
  split; [apply preview_length|].
  unfold preview at 1 3 4. destruct (Nat.ltb_spec n (len s)) as [H|H].
  - assert (L : len (firstn n s) = n) by (rewrite length_firstn; lia).
    assert (F : firstn n (firstn n s ++ ellipsis) = firstn n s).
    { rewrite firstn_app, L, Nat.sub_diag, firstn_firstn, Nat.min_id.
      cbn [firstn]. apply app_nil_r. }
    split; [exact F|].
    unfold preview. rewrite length_app, L.
    destruct (Nat.ltb_spec n (n + len ellipsis)) as [_|H'];
      [rewrite F; reflexivity|cbn in H'; lia].
  - split; [reflexivity|].
    unfold preview. destruct (Nat.ltb_spec n (len s)); [lia|reflexivity].
Qed.

Lemma specials_escaped_flat_map (prev : bool) (s : str) :
  specials_escaped prev (flat_map escape_char s) = true.
Proof.
  revert prev. induction s as [|c s IH]; intros prev; [reflexivity|].
  cbn [flat_map]. unfold escape_char at 1.
  destruct (is_markdown_special c) eqn:Hc.
  - cbn [app specials_escaped]. rewrite backslash_not_special, Hc.
    rewrite N.eqb_refl, IH. reflexivity.
  - cbn [app specials_escaped]. rewrite Hc, IH. reflexivity.
Qed.

(** X9: in an escaped field every [*], [_] and backtick stands right
    after a backslash, and escaping loses nothing: two fields with the same
    escaped form are the same field. *)
Theorem escape_markdown_safe (s : str) :
  specials_escaped false (escape_markdown s) = true
  /\ (forall s', escape_markdown s = escape_markdown s' -> s = s').
Proof.
  split.
  - rewrite escape_markdown_flat_map. apply specials_escaped_flat_map.
  - intros s' H. apply (f_equal unescape) in H.
    rewrite !unescape_escape_markdown in H. exact H.
Qed.

(** ** Further properties of the formatter *)

Lemma escaped_preview_length (n : nat) (s : str) :
  len (escape_markdown (preview n s)) <= 2 * n + 3.
Proof.
  unfold preview. destruct (Nat.ltb_spec n (len s)) as [H|H].
  - rewrite escape_markdown_app, escape_markdown_ellipsis, length_app.
    destruct (escaped_prefix_bounds n s H) as [_ [_ B]].
    change (len ellipsis) with 3. lia.
  - rewrite escape_markdown_length.
    pose proof (count_special_le s). lia.
Qed.

Lemma join_cons2 (sep p q : str) (ps : list str) :
  join sep (p :: q :: ps) = p ++ sep ++ join sep (q :: ps).
Proof. reflexivity. Qed.

Lemma join_newlines (parts : list str) :
  count_newlines (join nl parts)
  = pred (List.length parts) + list_sum (map count_newlines parts).
Proof.
  induction parts as [|p ps IH]; [reflexivity|].
  destruct ps as [|q ps].
  - cbn [join List.length pred map list_sum fold_right]. lia.
  - rewrite join_cons2. unfold count_newlines, str, char in *.
    rewrite !count_occ_app, IH.
    cbn [List.length pred map list_sum fold_right nl count_occ].
    destruct (N.eq_dec 10 10) as [_|N]; [lia|congruence].
Qed.

Section FormatterShape.

Variable str_title : str -> str.
Variable str_upper : str -> str.

Lemma chat_lines_length (m : Message.t) :
  List.length (chat_lines str_title m)
  = match Message.chat m with Some _ => 4 | None => 0 end.
Proof. unfold chat_lines. destruct (Message.chat m); reflexivity. Qed.

Lemma sender_lines_length (m : Message.t) :
  List.length (sender_lines m)
  = match Message.from_user m with Some _ => 3 | None => 0 end.
Proof. unfold sender_lines. destruct (Message.from_user m); reflexivity. Qed.

Lemma text_lines_length (m : Message.t) :
  List.length (text_lines m) = if truthy (Message.text m) then 1 else 0.
Proof.
  unfold text_lines, truthy. destruct (Message.text m) as [t|]; [|reflexivity].
  destruct (nonempty t); reflexivity.
Qed.

Lemma media_lines_length (m : Message.t) :
  List.length (media_lines str_upper m)
  = match Message.media m with
    | Some _ => 1 + (if truthy (Message.caption m) then 1 else 0)
    | None => 0
    end.
Proof.
  unfold media_lines, truthy. destruct (Message.media m); [|reflexivity].
  destruct (Message.caption m) as [c|]; [|reflexivity].
  destruct (nonempty c); reflexivity.
Qed.

(** X10: [info_parts] is the time entry, then the entries of the
    message, then the message-id entry; only the time entry depends on the
    clock, so two reports of one message differ in their first entry at
    most.  The number of entries is fixed by what the message carries and
    lies between 2 and 14.  The report joins them with newlines: it begins
    with the time entry and a newline, and its newline characters are one
    less than the number of entries plus those inside the entries, so that
    it has as many lines as entries when no entry holds a newline. *)
Theorem report_shape (m : Message.t) :
  exists middle,
    (forall timestamp,
       info_parts str_title str_upper timestamp m
       = (label_time ++ timestamp)
         :: middle
            ++ [label_message_id ++ str_of_int (Message.id m) ++ lit "`"])
    /\ (forall timestamp,
          List.length (info_parts str_title str_upper timestamp m)
          = entry_count m)
    /\ 2 <= entry_count m <= 14
    /\ (forall timestamp, exists rest,
          format_message_info str_title str_upper timestamp m
          = label_time ++ timestamp ++ nl ++ rest)
    /\ (forall timestamp,
          count_newlines (format_message_info str_title str_upper timestamp m)
          = entry_count m - 1
            + list_sum (map count_newlines
                          (info_parts str_title str_upper timestamp m)))
    /\ (forall timestamp,
          (forall entry,
             In entry (info_parts str_title str_upper timestamp m) ->
             count_newlines entry = 0) ->
          count_newlines (format_message_info str_title str_upper timestamp m)
          = entry_count m - 1).
Proof.
  exists (chat_lines str_title m ++ sender_lines m ++ text_lines m
          ++ media_lines str_upper m
          ++ (if Message.reply_to_message m then [line_reply] else [])
          ++ (if Message.forward_from m || Message.forward_from_chat m
              then [line_forwarded] else [])).
  assert (S : forall timestamp,
             info_parts str_title str_upper timestamp m
             = (label_time ++ timestamp)
               :: (chat_lines str_title m ++ sender_lines m ++ text_lines m
                   ++ media_lines str_upper m
                   ++ (if Message.reply_to_message m then [line_reply] else [])
                   ++ (if Message.forward_from m
                          || Message.forward_from_chat m
                       then [line_forwarded] else []))
                  ++ [label_message_id ++ str_of_int (Message.id m)
                      ++ lit "`"]).
  { intros timestamp. unfold info_parts, additional_lines.
    cbn [app]. rewrite <- !app_assoc. reflexivity. }
  assert (L : forall timestamp,
             List.length (info_parts str_title str_upper timestamp m)
             = entry_count m).
  { intros timestamp. unfold info_parts, additional_lines, entry_count.
    rewrite !length_app, chat_lines_length, sender_lines_length,
      text_lines_length, media_lines_length.
    destruct (Message.chat m), (Message.from_user m),
      (truthy (Message.text m)), (Message.media m),
      (truthy (Message.caption m)), (Message.reply_to_message m),
      (Message.forward_from m || Message.forward_from_chat m);
      reflexivity. }
  assert (C : forall timestamp,
             count_newlines
               (format_message_info str_title str_upper timestamp m)
             = entry_count m - 1
               + list_sum (map count_newlines
                             (info_parts str_title str_upper timestamp m))).
  { intros timestamp. unfold format_message_info.
    rewrite join_newlines, L. lia. }
  split; [exact S|]. split; [exact L|]. split; [|split; [|split]];
    [| |exact C|].
  - unfold entry_count.
    destruct (Message.chat m), (Message.from_user m),
      (truthy (Message.text m)), (Message.media m),
      (truthy (Message.caption m)), (Message.reply_to_message m),
      (Message.forward_from m || Message.forward_from_chat m);
      cbn; lia.
  - intros timestamp. unfold format_message_info. rewrite S.
    match goal with
    | |- context [join nl (?p :: ?mid ++ [?z])] =>
        destruct (mid ++ [z]) as [|q qs] eqn:E
    end.
    + apply app_eq_nil in E. destruct E as [_ E]. discriminate E.
    + exists (join nl (q :: qs)). rewrite join_cons2, <- app_assoc.
      reflexivity.
  - intros timestamp H. rewrite C.
    assert (Z0 : forall l : list str,
               (forall entry, In entry l -> count_newlines entry = 0) ->
               list_sum (map count_newlines l) = 0).
    { induction l as [|a l IH]; [reflexivity|]. intros Hl.
      cbn [map list_sum fold_right]. rewrite (Hl a (or_introl eq_refl)).
      apply IH. intros e He. apply Hl. right. exact He. }
    rewrite (Z0 _ H). lia.
Qed.

(** X11: a caption on a message without media has no effect: the report
    and the filter's answer are the same whatever the caption is. *)
Theorem caption_without_media_ignored (cfg : Config) (timestamp : str)
        (m : Message.t) (x : option str) :
  Message.media m = None ->
  format_message_info str_title str_upper timestamp (with_caption x m)
  = format_message_info str_title str_upper timestamp m
  /\ should_process_message cfg (with_caption x m)
     = should_process_message cfg m.
Proof.
  intros H. split; [|reflexivity].
  unfold format_message_info, info_parts, media_lines.
  cbn [with_caption Message.media Message.caption]. rewrite H. reflexivity.
Qed.

(** X12: user names are put into the report as they are, after an [@] and
    without escaping, for the chat and for the sender; a missing or empty
    user name gives the words No username. *)
Theorem usernames_verbatim (timestamp : str) (m : Message.t) :
  (forall chat, Message.chat m = Some chat ->
     renders_line (format_message_info str_title str_upper timestamp m)
       (label_username
        ++ match Chat.username chat with
           | Some (c :: u) => lit "@" ++ c :: u
           | _ => lit "No username"
           end))
  /\ (forall sender, Message.from_user m = Some sender ->
        renders_line (format_message_info str_title str_upper timestamp m)
          (label_sender_username
           ++ match User.username sender with
              | Some (c :: u) => lit "@" ++ c :: u
              | _ => lit "No username"
              end)).
Proof.
  split.
  - intros chat Hc. apply info_parts_renders, chat_line_in.
    unfold chat_lines. rewrite Hc. right. right. left.
    unfold username_or_default.
    destruct (Chat.username chat) as [[|c u]|]; reflexivity.
  - intros sender Hs. apply info_parts_renders, sender_line_in.
    unfold sender_lines. rewrite Hs. right. left.
    unfold username_or_default.
    destruct (User.username sender) as [[|c u]|]; reflexivity.
Qed.

(** X13: the media line names the part of [str(message.media)] after its
    last dot, upper-cased; it is the first of the media lines, followed by
    the caption line at most. *)
Theorem media_label_spec (m : Message.t) (media : MessageMediaType)
        (prefix name : str) :
  Message.media m = Some media ->
  media_str media = prefix ++ char_dot :: name ->
  ~ In char_dot name ->
  exists caption_line,
    media_lines str_upper m = (label_media ++ str_upper name) :: caption_line
    /\ List.length caption_line <= 1.
Proof.
  intros Hm Hs Hn. unfold media_lines. rewrite Hm, Hs.
  rewrite split_last_after, (split_last_no_sep _ _ Hn).
  eexists. split; [reflexivity|].
  destruct (Message.caption m) as [c|]; [|cbn; lia].
  destruct (nonempty c); cbn; lia.
Qed.

(** X14: the text line has at most 413 characters and the caption line at
    most 216, however long the text and the caption are: an escaped preview
    of bound n has at most 2n + 3 characters. *)
Theorem preview_lines_bounded (m : Message.t) :
  (forall n s, len (escape_markdown (preview n s)) <= 2 * n + 3)
  /\ Forall (fun line => len line <= 413) (text_lines m)
  /\ Forall (fun line => len line <= 216) (tl (media_lines str_upper m)).
Proof.
  split; [apply escaped_preview_length|]. split.
  - unfold text_lines. destruct (Message.text m) as [t|]; [|constructor].
    destruct (nonempty t); [|constructor].
    constructor; [|constructor]. rewrite length_app.
    pose proof (escaped_preview_length 200 t).
    change (len label_text) with 10. lia.
  - unfold media_lines. destruct (Message.media m); [|constructor].
    cbn [app tl]. destruct (Message.caption m) as [c|]; [|constructor].
    destruct (nonempty c); [|constructor].
    constructor; [|constructor]. rewrite length_app.
    pose proof (escaped_preview_length 100 c).
    change (len label_caption) with 13. lia.
Qed.

(** X15: the sender's display name neither begins nor ends with
    whitespace; it is empty when both names are missing or empty, and it is
    first name, space, last name when both are given without whitespace at
    their outer ends. *)
Theorem sender_display_name_spec (sender : User.t) :
  starts_clean (sender_display_name sender)
  /\ ends_clean (sender_display_name sender)
  /\ (truthy (User.first_name sender) = false ->
      truthy (User.last_name sender) = false ->
      sender_display_name sender = [])
  /\ (forall f l,
        User.first_name sender = Some f -> User.last_name sender = Some l ->
        f <> [] -> l <> [] -> starts_clean f -> ends_clean l ->
        sender_display_name sender = f ++ lit " " ++ l).
Proof.
  unfold sender_display_name.
  destruct (strip_facts (py_or (User.first_name sender) [] ++ lit " "
                         ++ py_or (User.last_name sender) []))
    as (_ & H1 & H2 & H3).
  split; [exact H1|]. split; [exact H2|]. split.
  - unfold truthy, py_or.
    destruct (User.first_name sender) as [f|], (User.last_name sender) as [l|];
      intros Hf Hl; try rewrite Hf; try rewrite Hl; reflexivity.
  - intros f l Hf Hl Nf Nl Cf Cl. rewrite Hf, Hl. unfold py_or.
    destruct f as [|a f]; [congruence|]. destruct l as [|b l]; [congruence|].
    cbn [nonempty]. apply strip_facts.
    + exact Cf.
    + unfold ends_clean in *. rewrite !rev_app_distr.
      destruct (rev (b :: l)) as [|z r] eqn:E.
      * apply (f_equal (@List.length char)) in E.
        rewrite length_rev in E. discriminate E.
      * exact Cl.
Qed.

End FormatterShape.

(** ** Further properties of the handler *)

Section HandlerRuns.

Variable str_title : str -> str.
Variable str_upper : str -> str.
Variable World : Type.
Variable send_message : Z -> str -> str -> World -> option Exn * World.
Variable now : World -> str.
Variable cfg : Config.

Local Abbreviation run :=
  (handle_message str_title str_upper send_message now cfg).

Local Abbreviation relayed m w :=
  (header ++ nl ++ nl ++ format_message_info str_title str_upper (now w) m).

Lemma send_to_exact (info : str) (u : Z) (w : World) :
  send_to send_message info u w
  = (Returned tt,
     snd (send_message u (header ++ nl ++ nl ++ info) (lit "MarkdownV2") w),
     [ EvSend u (header ++ nl ++ nl ++ info) (lit "MarkdownV2");
       attempt_log u
         (fst (send_message u (header ++ nl ++ nl ++ info)
                 (lit "MarkdownV2") w)) ]).
Proof.
  unfold send_to, try_except, call_send_message, bind, emit.
  destruct (send_message u (header ++ nl ++ nl ++ info) (lit "MarkdownV2") w)
    as [[e|] w']; reflexivity.
Qed.

Lemma send_loop_exact (info : str) (l : list Z) (w : World) :
  for_each l (send_to send_message info) w
  = (Returned tt,
     delivery_world send_message (header ++ nl ++ nl ++ info) l w,
     delivery_trace send_message (header ++ nl ++ nl ++ info) l w).
Proof.
  revert w. induction l as [|u l IH]; intros w; [reflexivity|].
  cbn [for_each]. unfold bind at 1. rewrite send_to_exact, IH.
  reflexivity.
Qed.

Lemma handle_accepted_exact (m : Message.t) (w : World) (chat : Chat.t) :
  Message.chat m = Some chat ->
  should_process_message cfg m = true -> from_self m = false ->
  run m w
  = (Returned tt,
     delivery_world send_message (relayed m w) (TARGET_USERS cfg) w,
     [ EvPrint m; EvFilter m;
       EvLogInfo (lit "Processing message from chat: "
                  ++ str_of_int (Chat.id chat));
       EvFormat m ]
     ++ delivery_trace send_message (relayed m w) (TARGET_USERS cfg) w).
Proof.
  intros Hc Hp Hs.
  unfold handle_message, bind, try_except, emit,
    call_should_process_message, call_format_message_info,
    message_chat_id, bind, emit, ret.
  rewrite Hp, Hs, Hc. cbn [negb]. rewrite send_loop_exact. reflexivity.
Qed.

Lemma delivery_trace_length (text : str) (l : list Z) (w : World) :
  List.length (delivery_trace send_message text l w) = 2 * List.length l.
Proof.
  revert w. induction l as [|u l IH]; intros w; [reflexivity|].
  cbn [delivery_trace List.length app]. rewrite IH. lia.
Qed.

Lemma delivery_trace_no_handler_error (text : str) (l : list Z) (w : World) :
  filter is_handler_error (delivery_trace send_message text l w) = [].
Proof.
  revert w. induction l as [|u l IH]; intros w; [reflexivity|].
  cbn [delivery_trace app filter]. rewrite IH.
  destruct (fst (send_message u text (lit "MarkdownV2") w)); reflexivity.
Qed.

Lemma delivery_trace_logs (text : str) (l : list Z) (w : World) (u : Z) :
  In u l ->
  exists outcome,
    In (attempt_log u outcome) (delivery_trace send_message text l w).
Proof.
  revert w. induction l as [|v l IH]; intros w; [intros []|].
  intros [->|H].
  - eexists. cbn [delivery_trace app]. right. left. reflexivity.
  - destruct (IH (snd (send_message v text (lit "MarkdownV2") w)) H)
      as (o & Ho).
    exists o. cbn [delivery_trace app]. right. right. exact Ho.
Qed.

Lemma handle_message_contained (m : Message.t) (w : World) :
  result_of (run m w) = Returned tt
  /\ filter is_handler_error (trace_of (run m w)) = [].
Proof.
  destruct (should_process_message cfg m) eqn:Hp.
  - destruct (from_self m) eqn:Hs.
    + rewrite (handle_from_self _ _ _ _ _ _ m w Hs). split; reflexivity.
    + destruct (should_process_message_has_chat cfg m Hp) as (chat & Hc).
      rewrite (handle_accepted_exact m w chat Hc Hp Hs).
      unfold result_of, trace_of. cbn [fst snd]. split; [reflexivity|].
      rewrite filter_app, delivery_trace_no_handler_error. reflexivity.
  - rewrite (handle_rejected _ _ _ _ _ _ m w Hp). split; reflexivity.
Qed.

(** X16: the handler fails exactly when [print(message)] does: a raise of
    the print leaves the handler with that exception before the filter is
    called and before anything is sent; when the print returns, the run
    returns on every message, whatever the relay does, and the outer
    [except] clause never writes its record, since the attribute access
    [message.chat.id] comes after the filter has turned down the messages
    without chat. *)
Theorem handler_fails_only_in_print
        (print_message : Message.t -> World -> option Exn * World)
        (m : Message.t) (w : World) :
  (forall e w', print_message m w = (Some e, w') ->
     handle_message_printing str_title str_upper send_message now
       print_message cfg m w
     = (Raised e, w', [EvPrint m]))
  /\ (forall w', print_message m w = (None, w') ->
        handle_message_printing str_title str_upper send_message now
          print_message cfg m w
        = run m w'
        /\ result_of (handle_message_printing str_title str_upper
                        send_message now print_message cfg m w)
           = Returned tt
        /\ filter is_handler_error
             (trace_of (handle_message_printing str_title str_upper
                          send_message now print_message cfg m w))
           = [])
  /\ (result_of (handle_message_printing str_title str_upper send_message
                   now print_message cfg m w) = Returned tt
      <-> fst (print_message m w) = None).
Proof.
  unfold handle_message_printing.
  destruct (print_message m w) as [[e|] w1].
  - split; [|split].
    + intros e' w' H. injection H as -> ->. reflexivity.
    + intros w' H. discriminate H.
    + cbn. split; discriminate.
  - destruct (handle_message_contained m w1) as [R E].
    split; [|split].
    + intros e w' H. discriminate H.
    + intros w' H. injection H as ->. auto.
    + cbn [fst]. split; auto.
Qed.

(** X17: a message is dropped, by the filter or as self-authored, exactly
    when its run consists of the print and the filter call; such a run
    leaves the relay untouched and writes no log record. *)
Theorem dropped_message_run (m : Message.t) (w : World) :
  (should_process_message cfg m && negb (from_self m) = false
   <-> trace_of (run m w) = [EvPrint m; EvFilter m])
  /\ (should_process_message cfg m && negb (from_self m) = false ->
      run m w = (Returned tt, w, [EvPrint m; EvFilter m])).
Proof.
  destruct (should_process_message cfg m) eqn:Hp.
  - destruct (from_self m) eqn:Hs.
    + rewrite (handle_from_self _ _ _ _ _ _ m w Hs). repeat split.
    + destruct (should_process_message_has_chat cfg m Hp) as (chat & Hc).
      rewrite (handle_accepted_exact m w chat Hc Hp Hs).
      unfold trace_of. cbn [snd andb negb]. split; [split|]; discriminate.
  - rewrite (handle_rejected _ _ _ _ _ _ m w Hp). repeat split.
Qed.

(** X18: on an accepted message the run is the print, the filter call, the
    processing record and the format call, then for each entry of
    TARGET_USERS in turn the attempt and its log record; each attempt is
    made in the world the previous one left.  The trace has
    4 + 2 * len(TARGET_USERS) events. *)
Theorem accepted_message_run (m : Message.t) (w : World) (chat : Chat.t) :
  Message.chat m = Some chat ->
  should_process_message cfg m = true -> from_self m = false ->
  run m w
  = (Returned tt,
     delivery_world send_message (relayed m w) (TARGET_USERS cfg) w,
     [ EvPrint m; EvFilter m;
       EvLogInfo (lit "Processing message from chat: "
                  ++ str_of_int (Chat.id chat));
       EvFormat m ]
     ++ delivery_trace send_message (relayed m w) (TARGET_USERS cfg) w)
  /\ List.length (trace_of (run m w))
     = 4 + 2 * List.length (TARGET_USERS cfg).
Proof.
  intros Hc Hp Hs. rewrite (handle_accepted_exact m w chat Hc Hp Hs).
  split; [reflexivity|]. unfold trace_of. cbn [snd].
  rewrite length_app, delivery_trace_length. reflexivity.
Qed.

(** X19: with an empty TARGET_USERS an accepted message is still formatted
    but nothing is sent and the relay is left untouched. *)
Theorem no_recipients_run (m : Message.t) (w : World) :
  TARGET_USERS cfg = [] ->
  should_process_message cfg m = true -> from_self m = false ->
  sends (trace_of (run m w)) = []
  /\ filter is_format (trace_of (run m w)) = [EvFormat m]
  /\ run m w = (Returned tt, w, trace_of (run m w)).
Proof.
  intros Ht Hp Hs.
  destruct (should_process_message_has_chat cfg m Hp) as (chat & Hc).
  rewrite (handle_accepted_exact m w chat Hc Hp Hs), Ht.
  repeat split.
Qed.

Lemma delivery_trace_app (text : str) (a b : list Z) (w : World) :
  delivery_trace send_message text (a ++ b) w
  = delivery_trace send_message text a w
    ++ delivery_trace send_message text b
         (delivery_world send_message text a w).
Proof.
  revert w. induction a as [|u a IH]; intros w; [reflexivity|].
  cbn [app delivery_trace]. rewrite IH. reflexivity.
Qed.

Lemma delivery_trace_recipients (text : str) (l : list Z) (w : World) :
  recipients (delivery_trace send_message text l w) = l.
Proof.
  revert w. induction l as [|u l IH]; intros w; [reflexivity|].
  unfold recipients in *. cbn [delivery_trace]. rewrite sends_app.
  rewrite map_app, IH. unfold attempt_log.
  destruct (fst (send_message u text (lit "MarkdownV2") w)); reflexivity.
Qed.

(** X20: on an accepted message the attempt for an entry of TARGET_USERS
    is followed at once by its log record, and the record tells the
    outcome of that very attempt, made in the world the attempts for the
    entries before it left: the info record when the relay returned, the
    error record with the text of the raised exception when it raised.
    The attempts before it are those for the entries before it, the
    attempts after it those for the entries after it. *)
Theorem every_attempt_logged (m : Message.t) (w : World)
        (before : list Z) (u : Z) (after : list Z) :
  should_process_message cfg m = true -> from_self m = false ->
  TARGET_USERS cfg = before ++ u :: after ->
  exists pre post,
    trace_of (run m w)
    = pre
      ++ [ EvSend u (relayed m w) (lit "MarkdownV2");
           match
             fst (send_message u (relayed m w) (lit "MarkdownV2")
                    (fold_left
                       (fun w0 v =>
                          snd (send_message v (relayed m w)
                                 (lit "MarkdownV2") w0))
                       before w))
           with
           | None =>
             EvLogInfo (lit "Message info sent to user: " ++ str_of_int u)
           | Some e =>
             EvLogError (lit "Failed to send message to user "
                         ++ str_of_int u ++ lit ": " ++ exn_str e)
           end ]
      ++ post
    /\ recipients pre = before /\ recipients post = after.
Proof.
  intros Hp Hs Ht.
  destruct (should_process_message_has_chat cfg m Hp) as (chat & Hc).
  rewrite (handle_accepted_exact m w chat Hc Hp Hs), Ht.
  unfold trace_of. cbn [snd]. rewrite delivery_trace_app.
  cbn [delivery_trace].
  exists ([ EvPrint m; EvFilter m;
            EvLogInfo (lit "Processing message from chat: "
                       ++ str_of_int (Chat.id chat));
            EvFormat m ]
          ++ delivery_trace send_message (relayed m w) before w).
  eexists. split; [rewrite <- !app_assoc; reflexivity|]. split.
  - unfold recipients. rewrite sends_app. cbn [sends flat_map app map].
    apply delivery_trace_recipients.
  - apply delivery_trace_recipients.
Qed.

Lemma delivery_trace_reliable (text : str) (l : list Z) (w : World) :
  (forall u t p w0, fst (send_message u t p w0) = None) ->
  delivery_trace send_message text l w
  = flat_map (fun u => [ EvSend u text (lit "MarkdownV2");
                         EvLogInfo (lit "Message info sent to user: "
                                    ++ str_of_int u) ]) l.
Proof.
  intros H. revert w. induction l as [|u l IH]; intros w; [reflexivity|].
  cbn [delivery_trace flat_map]. rewrite H, IH. reflexivity.
Qed.

(** X21: when the relay never raises, no run writes an error record. *)
Theorem reliable_relay_no_error (m : Message.t) (w : World) :
  (forall u t p w0, fst (send_message u t p w0) = None) ->
  filter is_log_error (trace_of (run m w)) = [].
Proof.
  intros H. destruct (should_process_message cfg m) eqn:Hp.
  - destruct (from_self m) eqn:Hs.
    + rewrite (handle_from_self _ _ _ _ _ _ m w Hs). reflexivity.
    + destruct (should_process_message_has_chat cfg m Hp) as (chat & Hc).
      rewrite (handle_accepted_exact m w chat Hc Hp Hs).
      unfold trace_of. cbn [snd]. rewrite filter_app.
      rewrite (delivery_trace_reliable _ _ _ H). cbn [filter is_log_error app].
      induction (TARGET_USERS cfg) as [|u l IH]; [reflexivity|].
      cbn [flat_map app filter is_log_error]. exact IH.
  - rewrite (handle_rejected _ _ _ _ _ _ m w Hp). reflexivity.
Qed.

End HandlerRuns.

(** ** Properties of the startup *)

Lemma main_cases (cred : Credentials) (cfg : Config) :
  main cred cfg
  = [ StartInfo (lit "Starting Telegram Message Monitor...") ]
    ++ (if truthy (API_ID cred) && truthy (API_HASH cred)
        then if truthy (BOT_TOKEN cred)
             then (match TARGET_USERS cfg with
                   | [] =>
                     [ StartWarning (lit "No target users configured! Please add user IDs to TARGET_USERS in config.py") ]
                   | _ :: _ => []
                   end) ++ [ RunUserBot ]
             else [ StartError (lit "BOT_TOKEN must be configured!") ]
        else [ StartError (lit "API_ID and API_HASH must be configured!") ]).
Proof.
  unfold main.
  destruct (truthy (API_ID cred)), (truthy (API_HASH cred)),
    (truthy (BOT_TOKEN cred)); reflexivity.
Qed.

(** X22: [main] starts the user bot exactly when API_ID, API_HASH and
    BOT_TOKEN are all set to non-empty values (a variable set to the empty
    string counts as missing); when it starts the bot, that is its last
    action and no error was logged. *)
Theorem main_runs_iff (cred : Credentials) (cfg : Config) :
  (In RunUserBot (main cred cfg)
   <-> truthy (API_ID cred) = true /\ truthy (API_HASH cred) = true
       /\ truthy (BOT_TOKEN cred) = true)
  /\ (In RunUserBot (main cred cfg) ->
      (exists before, main cred cfg = before ++ [RunUserBot]
                      /\ ~ In RunUserBot before)
      /\ filter is_start_error (main cred cfg) = []).
Proof.
  rewrite main_cases.
  destruct (truthy (API_ID cred)), (truthy (API_HASH cred)),
    (truthy (BOT_TOKEN cred)); cbn [andb];
    try (split; [split; [intros [H|[H|[]]]; discriminate H
                        |intros (? & ? & ?); discriminate]
                |intros [H|[H|[]]]; discriminate H]).
  destruct (TARGET_USERS cfg) as [|u l].
  - split; [split; [auto|intros _; right; right; left; reflexivity]|].
    intros _. split; [|reflexivity].
    eexists [_; _]. split; [reflexivity|].
    intros [H|[H|[]]]; discriminate H.
  - split; [split; [auto|intros _; right; left; reflexivity]|].
    intros _. split; [|reflexivity].
    eexists [_]. split; [reflexivity|].
    intros [H|[]]; discriminate H.
Qed.

(** X23: when a credential is missing [main] logs exactly one error and
    stops before looking at TARGET_USERS; the check of API_ID and API_HASH
    comes first, so with these missing the BOT_TOKEN error is not logged
    even when BOT_TOKEN is missing too. *)
Theorem main_missing_credentials (cred : Credentials) (cfg : Config) :
  truthy (API_ID cred) && truthy (API_HASH cred) && truthy (BOT_TOKEN cred)
  = false ->
  main cred cfg
  = [ StartInfo (lit "Starting Telegram Message Monitor...");
      StartError
        (if truthy (API_ID cred) && truthy (API_HASH cred)
         then lit "BOT_TOKEN must be configured!"
         else lit "API_ID and API_HASH must be configured!") ]
  /\ (forall cfg', main cred cfg' = main cred cfg).
Proof.
  intros H. split; [|intros cfg']; rewrite !main_cases;
    destruct (truthy (API_ID cred)), (truthy (API_HASH cred)),
      (truthy (BOT_TOKEN cred)); try discriminate H; reflexivity.
Qed.

(** X24: with the credentials set, an empty TARGET_USERS makes [main] log
    one warning and start the bot all the same; a non-empty TARGET_USERS
    gives no warning. *)
Theorem main_warns_without_recipients (cred : Credentials) (cfg : Config) :
  truthy (API_ID cred) = true -> truthy (API_HASH cred) = true ->
  truthy (BOT_TOKEN cred) = true ->
  (TARGET_USERS cfg = [] ->
   main cred cfg
   = [ StartInfo (lit "Starting Telegram Message Monitor...");
       StartWarning (lit "No target users configured! Please add user IDs to TARGET_USERS in config.py");
       RunUserBot ])
  /\ (TARGET_USERS cfg <> [] ->
      main cred cfg
      = [ StartInfo (lit "Starting Telegram Message Monitor...");
          RunUserBot ]).
Proof.
  intros H1 H2 H3. rewrite main_cases, H1, H2, H3. cbn [andb].
  split; intros H.
  - rewrite H. reflexivity.
  - destruct (TARGET_USERS cfg); [contradiction|reflexivity].
Qed.

(** ** The further properties on concrete runs *)

Lemma media_rule_witness :
  should_process_message photo_rejecting (Run.photo (lit "cap")) = false.
Proof.
  apply (proj2 (media_rule photo_rejecting (Run.photo (lit "cap")) eq_refl)).
  split; reflexivity.
Defined.

Lemma length_rule_idle_witness :
  should_process_message config_py Run.hi
  = should_process_message config_py (Message.with_text None Run.hi).
Proof.
  apply (length_rule_idle config_py Run.hi). cbn. lia.
Defined.

Lemma filter_reads_four_fields_witness :
  should_process_message config_py Run.hi
  = should_process_message config_py
      (Message.with_from_user (Some Run.myself) Run.hi).
Proof.
  apply (filter_reads_four_fields config_py Run.hi
           (Message.with_from_user (Some Run.myself) Run.hi));
    reflexivity.
Defined.

Lemma filter_monotone_witness :
  should_process_message config_py (Run.msg (Some Run.private_chat) None
                                      (Some (lit "hello")))
  = true.
Proof.
  apply (filter_monotone (Run.two_users [] 3) config_py
           (Run.msg (Some Run.private_chat) None (Some (lit "hello")))).
  - cbn. lia.
  - intros x H. exact H.
  - reflexivity.
  - reflexivity.
  - reflexivity.
  - reflexivity.
  - reflexivity.
Defined.

Lemma strip_spec_witness : strip (lit "a b") = lit "a b".
Proof.
  apply (proj2 (proj2 (proj2 (strip_spec (lit "a b"))))); reflexivity.
Defined.

Lemma split_last_spec_witness :
  split_last char_dot (lit "Kind.PHOTO") = lit "PHOTO".
Proof.
  apply (proj1 (proj2 (split_last_spec char_dot (lit "Kind.PHOTO")))
           (lit "Kind") (lit "PHOTO")).
  - reflexivity.
  - cbn. intros H. repeat (destruct H as [H|H]; [discriminate H|]).
    exact H.
Defined.

Lemma escape_markdown_safe_witness : lit "a*" = lit "a*".
Proof.
  apply (proj2 (escape_markdown_safe (lit "a*")) (lit "a*")). reflexivity.
Defined.

Lemma caption_without_media_ignored_witness :
  format_message_info Run.str_title Run.str_upper (lit "now")
    (with_caption (Some (lit "unseen")) Run.hi)
  = format_message_info Run.str_title Run.str_upper (lit "now") Run.hi.
Proof.
  apply (caption_without_media_ignored Run.str_title Run.str_upper config_py
           (lit "now") Run.hi (Some (lit "unseen")) eq_refl).
Defined.

Lemma usernames_verbatim_witness :
  renders_line
    (format_message_info Run.str_title Run.str_upper (lit "now") Run.hi)
    (label_sender_username ++ lit "@ann").
Proof.
  apply (proj2 (usernames_verbatim Run.str_title Run.str_upper (lit "now")
                  Run.hi) Run.sender eq_refl).
Defined.

Lemma media_label_spec_witness :
  exists caption_line,
    media_lines Run.str_upper (Run.photo (lit "cap"))
    = (label_media ++ lit "PHOTO") :: caption_line
    /\ List.length caption_line <= 1.
Proof.
  apply (media_label_spec Run.str_upper (Run.photo (lit "cap"))
           {| media_str := lit "MessageMediaType.PHOTO" |}
           (lit "MessageMediaType") (lit "PHOTO") eq_refl eq_refl).
  cbn. intros H. repeat (destruct H as [H|H]; [discriminate H|]). exact H.
Defined.

Lemma sender_display_name_spec_witness :
  sender_display_name Run.sender = lit "Ann *B*".
Proof.
  apply (proj2 (proj2 (proj2 (sender_display_name_spec Run.sender)))
           (lit "Ann") (lit "*B*")); try reflexivity; discriminate.
Defined.

Lemma dropped_message_run_witness :
  Run.run config_py Run.from_myself []
  = (Returned tt, [], [EvPrint Run.from_myself; EvFilter Run.from_myself]).
Proof.
  apply (proj2 (dropped_message_run Run.str_title Run.str_upper _
                  Run.send_message Run.now config_py Run.from_myself [])).
  reflexivity.
Defined.

Lemma accepted_message_run_witness :
  List.length (trace_of (Run.run (Run.two_users [] 1) Run.hi [11%Z])) = 8.
Proof.
  apply (proj2 (accepted_message_run Run.str_title Run.str_upper _
                  Run.send_message Run.now (Run.two_users [] 1) Run.hi
                  [11%Z] Run.private_chat eq_refl eq_refl eq_refl)).
Defined.

Lemma no_recipients_run_witness :
  sends (trace_of (Run.run no_recipients Run.hi [])) = [].
Proof.
  apply (proj1 (no_recipients_run Run.str_title Run.str_upper _
                  Run.send_message Run.now no_recipients Run.hi []
                  eq_refl eq_refl eq_refl)).
Defined.

Lemma every_attempt_logged_witness :
  exists pre post,
    trace_of (Run.run (Run.two_users [] 1) Run.hi [22%Z])
    = pre
      ++ [ EvSend 22
             (header ++ nl ++ nl
              ++ format_message_info Run.str_title Run.str_upper
                   (lit "2024-01-01 12:00:00") Run.hi)
             (lit "MarkdownV2");
           EvLogError (lit "Failed to send message to user 22: Forbidden: bot was blocked by the user") ]
      ++ post
    /\ recipients pre = [11%Z] /\ recipients post = [].
Proof.
  apply (every_attempt_logged Run.str_title Run.str_upper _
           Run.send_message Run.now (Run.two_users [] 1) Run.hi [22%Z]
           [11%Z] 22%Z [] eq_refl eq_refl eq_refl).
Defined.

Lemma handler_fails_only_in_print_witness :
  handle_message_printing Run.str_title Run.str_upper Run.send_message
    Run.now failing_print config_py Run.hi []
  = (Raised {| exn_str := lit "UnicodeEncodeError: 'ascii' codec can't encode character" |},
     [], [EvPrint Run.hi])
  /\ result_of (handle_message_printing Run.str_title Run.str_upper
                  Run.send_message Run.now working_print config_py Run.hi [])
     = Returned tt.
Proof.
  split.
  - apply (proj1 (handler_fails_only_in_print Run.str_title Run.str_upper _
                    Run.send_message Run.now config_py failing_print
                    Run.hi [])).
    reflexivity.
  - apply (proj1 (proj2 (handler_fails_only_in_print Run.str_title
                           Run.str_upper _ Run.send_message Run.now
                           config_py working_print Run.hi []))
             [] eq_refl).
Defined.

Lemma report_shape_witness :
  count_newlines
    (format_message_info Run.str_title Run.str_upper (lit "now") Run.hi)
  = 9.
Proof.
  destruct (report_shape Run.str_title Run.str_upper Run.hi)
    as (middle & _ & _ & _ & _ & _ & H).
  apply (H (lit "now")).
  intros entry Hin. vm_compute in Hin.
  repeat (destruct Hin as [Hin|Hin]; [rewrite <- Hin; reflexivity|]).
  destruct Hin.
Defined.

Lemma reliable_relay_no_error_witness :
  filter is_log_error
    (trace_of (handle_message Run.str_title Run.str_upper reliable_send
                 fixed_clock (Run.two_users [] 1) Run.hi tt))
  = [].
Proof.
  apply (reliable_relay_no_error Run.str_title Run.str_upper _
           reliable_send fixed_clock (Run.two_users [] 1) Run.hi tt).
  intros u t p w0. reflexivity.
Defined.

Lemma main_runs_iff_witness :
  In RunUserBot (main (sample_credentials (Some (lit "123:abc"))) config_py)
  /\ ~ In RunUserBot (main (sample_credentials (Some [])) config_py).
Proof.
  split.
  - apply (proj2 (proj1 (main_runs_iff
                           (sample_credentials (Some (lit "123:abc")))
                           config_py))).
    repeat split.
  - intros H.
    apply (proj1 (proj1 (main_runs_iff (sample_credentials (Some []))
                           config_py))) in H.
    destruct H as (_ & _ & H). discriminate H.
Defined.

Lemma main_missing_credentials_witness :
  main (sample_credentials None) config_py
  = [ StartInfo (lit "Starting Telegram Message Monitor...");
      StartError (lit "BOT_TOKEN must be configured!") ].
Proof.
  apply (proj1 (main_missing_credentials (sample_credentials None) config_py
                  eq_refl)).
Defined.

Lemma main_warns_without_recipients_witness :
  main (sample_credentials (Some (lit "123:abc"))) no_recipients
  = [ StartInfo (lit "Starting Telegram Message Monitor...");
      StartWarning (lit "No target users configured! Please add user IDs to TARGET_USERS in config.py");
      RunUserBot ].
Proof.
  apply (proj1 (main_warns_without_recipients
                  (sample_credentials (Some (lit "123:abc"))) no_recipients
                  eq_refl eq_refl eq_refl)).
  reflexivity.
Defined.
